(** * Scale range resolution of the uPlot scale builder

    A shallow embedding of
    [packages/grafana-ui/src/components/uPlot/config/UPlotScaleBuilder.ts]:
    the bounds merge [optMinMax] / [merge], the descriptor assembly
    [getConfig] and the auto-ranging closure [rangeFn] it installs.

    JavaScript numbers are IEEE 754 binary64 values, which is what Rocq's
    primitive [float] is, so numbers are embedded as [float] and the
    language's operators ([==], [===], [??], [||], [>=], [Math.abs], ...)
    are written out on them. *)

From Stdlib Require Import ZArith Bool Lia.
From Stdlib Require Import Floats.
From stdpp Require Import base option strings gmap.

Local Open Scope float_scope.

(* ===================================================================== *)
(** ** JavaScript values of type [number | null | undefined] *)
(* ===================================================================== *)

Module JS.

(** A value of TypeScript type [number | null | undefined]; optional
    properties ([min?: number | null]) read as [Undefined] when absent. *)
Inductive jsnum : Type :=
  | Undefined
  | Null
  | Num (x : float).

(** [ToNumber]: the coercion applied by arithmetic and relational operators. *)
Definition ToNumber (v : jsnum) : float :=
  match v with
  | Undefined => nan
  | Null => 0
  | Num x => x
  end.

(** [v == null]: true of [null] and of [undefined] only. *)
Definition is_nullish (v : jsnum) : bool :=
  match v with
  | Undefined | Null => true
  | Num _ => false
  end.

(** [v === undefined] and [v === null]. *)
Definition is_undefined (v : jsnum) : bool :=
  match v with Undefined => true | _ => false end.

Definition is_null (v : jsnum) : bool :=
  match v with Null => true | _ => false end.

(** [a ?? b] *)
Definition nullish_coalesce (a b : jsnum) : jsnum :=
  if is_nullish a then b else a.

(** [ToBoolean]: [undefined], [null], [0], [-0] and [NaN] are falsy. *)
Definition truthy (v : jsnum) : bool :=
  match v with
  | Undefined | Null => false
  | Num x => negb (is_zero x || is_nan x)
  end.

(** [a || b] *)
Definition logical_or (a b : jsnum) : jsnum :=
  if truthy a then a else b.

(** [v === 0] (strict equality with a number literal): no coercion, and the
    IEEE equality on numbers, so [-0 === 0] and [NaN !== NaN]. *)
Definition strict_eq_num (v : jsnum) (k : float) : bool :=
  match v with
  | Num x => x =? k
  | _ => false
  end.

(** The relational operators on numbers, after [ToNumber]. *)
Definition lt (a b : jsnum) : bool := ToNumber a <? ToNumber b.
Definition gt (a b : jsnum) : bool := ToNumber b <? ToNumber a.
Definition ge (a b : jsnum) : bool := ToNumber b <=? ToNumber a.

(** [Math.abs], and unary minus. *)
Definition Math_abs (v : jsnum) : float := abs (ToNumber v).

(** [Math.max] of two numbers: [NaN] if either is, and [+0] above [-0]. *)
Definition Math_max (a b : float) : float :=
  if is_nan a || is_nan b then nan
  else if a <? b then b
  else if b <? a then a
  else if get_sign a then b else a.

(** A truthy test for [boolean | undefined] properties. *)
Definition truthy_bool (b : option bool) : bool := default false b.

(** [Math.floor] on a binary64 value, through its sign, mantissa and exponent:
    a finite [x = (-1)^s * m * 2^e] with [e < 0] has fewer than 2^53 units,
    so its floor is built from the integer [floor (±m / 2^-e)]; with
    [0 <= e] it is an integer already.  Zeros, infinities and [NaN] are
    returned as they are. *)
Definition float_of_Z (z : Z) : float :=
  match z with
  | Z0 => 0
  | Zpos _ => of_uint63 (Uint63.of_Z z)
  | Zneg p => - of_uint63 (Uint63.of_Z (Zpos p))
  end.

Definition signed_mantissa (s : bool) (m : positive) : Z :=
  if s then Zneg m else Zpos m.

Definition Math_floor (x : float) : float :=
  match Prim2SF x with
  | S754_finite s m e =>
      if (e <? 0)%Z then float_of_Z (Z.shiftl (signed_mantissa s m) e) else x
  | _ => x
  end.

(** [Math.ceil(x)] is [-Math.floor(-x)], which also gives [-0] for
    [-1 < x < 0]. *)
Definition Math_ceil (x : float) : float := - Math_floor (- x).

(** [Number.isInteger]: finite with no fractional bits. *)
Definition SF_is_integer (f : spec_float) : bool :=
  match f with
  | S754_zero _ => true
  | S754_finite _ m e =>
      (0 <=? e)%Z || (Zpos m mod 2 ^ (- e) =? 0)%Z
  | _ => false
  end.

Definition is_integer (x : float) : bool := SF_is_integer (Prim2SF x).

(** The finite values are the zeros and the [S754_finite] ones. *)
Definition SF_finite (f : spec_float) : bool :=
  match f with
  | S754_zero _ | S754_finite _ _ _ => true
  | _ => false
  end.

End JS.

Import JS.


(* ===================================================================== *)
(** ** The uPlot interface the builder is written against *)
(* ===================================================================== *)

(** [uPlot.Range]: the ranging configuration handed to [uPlot.rangeNum] and
    the two-element result of a range function. *)
Module Range.

(** [Range.SoftMode]: one of the literals 0, 1, 2, 3. *)
Definition SoftMode := Z.

Record Limit : Type := {
  pad : float;
  hard : jsnum;
  soft : jsnum;
  mode : SoftMode;
}.

Record Config : Type := {
  min : Limit;
  max : Limit;
}.

(** [Range.MinMax = [min: number | null, max: number | null]] *)
Definition MinMax : Type := jsnum * jsnum.

End Range.

(** What [rangeFn] reads of a live scale [u.scales[scaleKey]]. *)
Record ScaleState : Type := {
  u_distr : jsnum;
  u_log : jsnum;
}.

(** What [rangeFn] reads of the plot instance [u]: its scales, by key. *)
Record uPlot : Type := {
  scales : gmap string ScaleState;
}.

(** The outcome of a call: a value, or the [TypeError] of reading a property
    of [undefined]. *)
Inductive completion (A : Type) : Type :=
  | Normal (a : A)
  | TypeError.
Arguments Normal {A} a.
Arguments TypeError {A}.

(** [Scale.Range]: a literal pair or a range function. *)
Inductive ScaleRange : Type :=
  | RangeMinMax (r : Range.MinMax)
  | RangeFunction (f : uPlot -> jsnum -> jsnum -> string -> completion Range.MinMax).

(** Modelled from the spec: the enumeration [ScaleDistribution] of
    [@grafana/schema] is not among the sources at hand.  The spec gives its
    members as Linear, Log, SymLog and Ordinal; the source names [Symlog],
    [Log] and [Ordinal]. *)
Inductive ScaleDistribution : Type :=
  | Linear
  | Log
  | Ordinal
  | Symlog.

Definition ScaleDistribution_eqb (a b : ScaleDistribution) : bool :=
  match a, b with
  | Linear, Linear | Log, Log | Ordinal, Ordinal | Symlog, Symlog => true
  | _, _ => false
  end.

(** [distr === ScaleDistribution.X] for the optional property [distribution]. *)
Definition distr_is (distr : option ScaleDistribution) (x : ScaleDistribution) : bool :=
  match distr with
  | Some d => ScaleDistribution_eqb d x
  | None => false
  end.

(** The first argument of [optMinMax]: ['min' | 'max']. *)
Inductive minmax_tag : Type := tag_min | tag_max.

(** The three ranging functions of the uPlot library.  The library is a
    dependency, not part of this code base: the builder is verified against
    any implementation of this interface. *)
Class uPlotLib : Type := {
  (** [uPlot.rangeNum(min, max, cfg)] *)
  rangeNum : jsnum -> jsnum -> Range.Config -> Range.MinMax;
  (** [uPlot.rangeLog(min, max, base, fullMags)] *)
  rangeLog : jsnum -> jsnum -> jsnum -> bool -> Range.MinMax;
  (** [uPlot.rangeAsinh(min, max, base, fullMags)] *)
  rangeAsinh : jsnum -> jsnum -> jsnum -> bool -> Range.MinMax;
}.

(** The helpers imported from [@grafana/data]. *)
Class GrafanaData : Type := {
  (** [incrRoundDn(num, incr)] *)
  incrRoundDn : jsnum -> float -> float;
  (** [incrRoundUp(num, incr)] *)
  incrRoundUp : jsnum -> float -> float;
  (** [isBooleanUnit(unit)] *)
  isBooleanUnit : string -> bool;
}.

(** The layout enumerations imported from [@grafana/schema]; the builder
    passes their values through without looking at them. *)
Class GrafanaSchema : Type := {
  ScaleOrientation : Type;
  ScaleDirection : Type;
}.

(** [ScaleProps]: the properties the builder is created with. *)
Module ScaleProps.
Record t {S : GrafanaSchema} : Type := {
  scaleKey : string;
  isTime : option bool;
  min : jsnum;
  max : jsnum;
  softMin : jsnum;
  softMax : jsnum;
  range : option ScaleRange;
  distribution : option ScaleDistribution;
  orientation : ScaleOrientation;
  direction : ScaleDirection;
  log : jsnum;
  linearThreshold : jsnum;
  centeredZero : option bool;
  decimals : jsnum;
}.
End ScaleProps.
Abbreviation ScaleProps := ScaleProps.t.

(** [Scale]: the descriptor [getConfig] returns for its key.  The three
    properties spread from [distribution] are [None] when the object spread
    does not define them, and [Some Undefined] when it defines them as
    [undefined]. *)
Module Scale.
Record t {S : GrafanaSchema} : Type := {
  time : option bool;
  auto : bool;
  range : ScaleRange;
  dir : ScaleDirection;
  ori : ScaleOrientation;
  distr : option jsnum;
  log : option jsnum;
  asinh : option jsnum;
}.
End Scale.
Abbreviation Scale := Scale.t.

(* ===================================================================== *)
(** ** Instances of the interfaces, for running the builder *)
(* ===================================================================== *)

(** [Math.min] of two numbers. *)
Definition Math_min (a b : float) : float := - Math_max (- a) (- b).

(** A stand-in for the uPlot library, to evaluate the builder on concrete
    inputs: [rangeNum] pads each side by [pad] times the span and clamps the
    result to the hard limits, and the two logarithmic functions hand the
    extent back.  uPlot's own functions round to "nice" numbers on top of
    this.  The theorems hold for every implementation of the interface; only
    the runs on concrete inputs use this one. *)
Definition sample_rangeNum (mn mx : jsnum) (cfg : Range.Config) : Range.MinMax :=
  let lo := ToNumber mn in
  let hi := ToNumber mx in
  let delta := hi - lo in
  (Num (Math_max (ToNumber (Range.hard (Range.min cfg)))
                 (lo - delta * Range.pad (Range.min cfg))),
   Num (Math_min (ToNumber (Range.hard (Range.max cfg)))
                 (hi + delta * Range.pad (Range.max cfg)))).

Definition sample_uPlot : uPlotLib := {|
  rangeNum := sample_rangeNum;
  rangeLog := fun mn mx _ _ => (mn, mx);
  rangeAsinh := fun mn mx _ _ => (mn, mx);
|}.

(** Modelled from the spec: [incrRoundDn] and [incrRoundUp] of
    [@grafana/data] are not among the sources at hand.  The spec describes
    the decimal snap, which calls them with the increment 1, as flooring the
    minimum and ceiling the maximum to the nearest integer; that is the whole
    of what is modelled, so the increment plays no part. *)
Definition spec_incrRoundDn (num : jsnum) (_incr : float) : float :=
  Math_floor (ToNumber num).

(** Modelled from the spec: [incrRoundUp], the ceiling counterpart of
    [incrRoundDn] above. *)
Definition spec_incrRoundUp (num : jsnum) (_incr : float) : float :=
  Math_ceil (ToNumber num).

(** Modelled from the spec: [isBooleanUnit] of [@grafana/data] is not among
    the sources at hand.  The spec says a boolean scale is "detected by
    key/unit"; the keys recognised here are those that start with [bool]. *)
Definition spec_isBooleanUnit (unit : string) : bool :=
  String.prefix "bool" unit.

Definition spec_GrafanaData : GrafanaData := {|
  incrRoundDn := spec_incrRoundDn;
  incrRoundUp := spec_incrRoundUp;
  isBooleanUnit := spec_isBooleanUnit;
|}.

(** The two layout enumerations are numeric enums at run time. *)
Definition numeric_GrafanaSchema : GrafanaSchema := {|
  ScaleOrientation := Z;
  ScaleDirection := Z;
|}.

(* ===================================================================== *)
(** ** UPlotScaleBuilder.ts *)
(* ===================================================================== *)

Module UPlotScaleBuilder.

(** [optMinMax(minmax, a, b)] *)
Definition optMinMax (minmax : minmax_tag) (a b : jsnum) : jsnum :=
  let hasA := negb (is_undefined a || is_null a) in
  let hasB := negb (is_undefined b || is_null b) in
  if hasA then
    if negb hasB then a
    else
      match minmax with
      | tag_min => if lt a b then a else b
      | tag_max => if gt a b then a else b
      end
  else b.

Section Builder.
Context {S : GrafanaSchema} {U : uPlotLib} {D : GrafanaData}.

(** [merge(props)]: updates [this.props.min] and [this.props.max] in place;
    the builder's state after the call is returned. *)
Definition merge (this props : ScaleProps) : ScaleProps :=
  {| ScaleProps.scaleKey := ScaleProps.scaleKey this;
     ScaleProps.isTime := ScaleProps.isTime this;
     ScaleProps.min := optMinMax tag_min (ScaleProps.min this) (ScaleProps.min props);
     ScaleProps.max := optMinMax tag_max (ScaleProps.max this) (ScaleProps.max props);
     ScaleProps.softMin := ScaleProps.softMin this;
     ScaleProps.softMax := ScaleProps.softMax this;
     ScaleProps.range := ScaleProps.range this;
     ScaleProps.distribution := ScaleProps.distribution this;
     ScaleProps.orientation := ScaleProps.orientation this;
     ScaleProps.direction := ScaleProps.direction this;
     ScaleProps.log := ScaleProps.log this;
     ScaleProps.linearThreshold := ScaleProps.linearThreshold this;
     ScaleProps.centeredZero := ScaleProps.centeredZero this;
     ScaleProps.decimals := ScaleProps.decimals this |}.

(** The [distribution] object of [getConfig] (lines 48-61): [None] is the
    empty object of a time scale. *)
Record Distribution : Type := {
  d_distr : jsnum;
  d_log : jsnum;
  d_asinh : jsnum;
}.

Definition distribution (props : ScaleProps) : option Distribution :=
  let distr := ScaleProps.distribution props in
  if negb (truthy_bool (ScaleProps.isTime props)) then
    Some {|
      d_distr :=
        if distr_is distr Symlog then Num 4
        else if distr_is distr Log then Num 3
        else if distr_is distr Ordinal then Num 2
        else Num 1;
      d_log :=
        if distr_is distr Log || distr_is distr Symlog
        then nullish_coalesce (ScaleProps.log props) (Num 2)
        else Undefined;
      d_asinh :=
        if distr_is distr Symlog
        then nullish_coalesce (ScaleProps.linearThreshold props) (Num 1)
        else Undefined;
    |}
  else None.

(** [softMinMode] / [softMaxMode] and [rangeConfig] (lines 63-80); the pad
    [0.1] is the binary64 value nearest to one tenth. *)
Definition softMinMode (props : ScaleProps) : Range.SoftMode :=
  if is_nullish (ScaleProps.softMin props) then 3%Z else 1%Z.

Definition softMaxMode (props : ScaleProps) : Range.SoftMode :=
  if is_nullish (ScaleProps.softMax props) then 3%Z else 1%Z.

Definition rangeConfig (props : ScaleProps) : Range.Config :=
  {| Range.min :=
       {| Range.pad := 0x1.999999999999ap-4;
          Range.hard := nullish_coalesce (ScaleProps.min props) (Num neg_infinity);
          Range.soft := logical_or (ScaleProps.softMin props) (Num 0);
          Range.mode := softMinMode props |};
     Range.max :=
       {| Range.pad := 0x1.999999999999ap-4;
          Range.hard := nullish_coalesce (ScaleProps.max props) (Num infinity);
          Range.soft := logical_or (ScaleProps.softMax props) (Num 0);
          Range.mode := softMaxMode props |} |}.

(** Lines 82-84. *)
Definition hardMinOnly (props : ScaleProps) : bool :=
  is_nullish (ScaleProps.softMin props) && negb (is_nullish (ScaleProps.min props)).

Definition hardMaxOnly (props : ScaleProps) : bool :=
  is_nullish (ScaleProps.softMax props) && negb (is_nullish (ScaleProps.max props)).

Definition hasFixedRange (props : ScaleProps) : bool :=
  hardMinOnly props && hardMaxOnly props.

(** *** The body of [rangeFn], block by block *)

(** Line 97: the test of the early return. *)
Definition noData (props : ScaleProps) (dataMin dataMax : jsnum) : bool :=
  negb (hasFixedRange props) && is_nullish dataMin && is_nullish dataMax.

(** Lines 102-108: the new values of [dataMin] and [dataMax]. *)
Definition centerZero (dataMin dataMax : jsnum) : jsnum * jsnum :=
  let absMin := Math_abs dataMin in
  let absMax := Math_abs dataMax in
  let max := Math_max absMin absMax in
  (Num (- max), Num max).

Definition centeredExtent (props : ScaleProps) (dataMin dataMax : jsnum) : jsnum * jsnum :=
  if truthy_bool (ScaleProps.centeredZero props)
  then centerZero dataMin dataMax
  else (dataMin, dataMax).

(** Line 111: the two values handed to [uPlot.rangeNum]. *)
Definition paddingArgs (props : ScaleProps) (dataMin dataMax : jsnum) : jsnum * jsnum :=
  let '(dataMin, dataMax) := centeredExtent props dataMin dataMax in
  (if hardMinOnly props then ScaleProps.min props else dataMin,
   if hardMaxOnly props then ScaleProps.max props else dataMax).

(** Lines 101-117: the range by distribution.  [minMax] keeps its initial
    value [[dataMin, dataMax]] when no branch is taken. *)
Definition distrRange (props : ScaleProps) (scale : ScaleState)
    (dataMin dataMax : jsnum) : Range.MinMax :=
  let distr := u_distr scale in
  if strict_eq_num distr 1 || strict_eq_num distr 2 || strict_eq_num distr 4 then
    let '(mn, mx) := paddingArgs props dataMin dataMax in
    rangeNum mn mx (rangeConfig props)
  else if strict_eq_num distr 3 then
    rangeLog dataMin dataMax (nullish_coalesce (u_log scale) (Num 10)) true
  else if strict_eq_num distr 4 then
    rangeAsinh dataMin dataMax (nullish_coalesce (u_log scale) (Num 10)) false
  else (dataMin, dataMax).

(** Lines 119-122. *)
Definition decimalSnap (props : ScaleProps) (minMax : Range.MinMax) : Range.MinMax :=
  if strict_eq_num (ScaleProps.decimals props) 0
  then (Num (incrRoundDn (fst minMax) 1), Num (incrRoundUp (snd minMax) 1))
  else minMax.

(** Lines 124-131. *)
Definition hardOverride (props : ScaleProps) (minMax : Range.MinMax) : Range.MinMax :=
  let minMax := if hardMinOnly props then (ScaleProps.min props, snd minMax) else minMax in
  if hardMaxOnly props then (fst minMax, ScaleProps.max props) else minMax.

(** Lines 133-137. *)
Definition degeneracyGuard (minMax : Range.MinMax) : Range.MinMax :=
  if ge (fst minMax) (snd minMax) then (Num 0, Num 100) else minMax.

(** The range as it stands when the guard of line 134 is reached. *)
Definition beforeGuard (props : ScaleProps) (scale : ScaleState)
    (dataMin dataMax : jsnum) : Range.MinMax :=
  hardOverride props (decimalSnap props (distrRange props scale dataMin dataMax)).

(** [rangeFn(u, dataMin, dataMax, scaleKey)] (lines 86-140), closed over the
    properties [getConfig] destructured.  [scale] is only dereferenced after
    the early return, which is where an unknown key raises. *)
Definition rangeFn (props : ScaleProps) (u : uPlot) (dataMin dataMax : jsnum)
    (scaleKey : string) : completion Range.MinMax :=
  let scale := scales u !! scaleKey in
  let minMax := (dataMin, dataMax) in
  if noData props dataMin dataMax then Normal minMax
  else
    match scale with
    | None => TypeError
    | Some scale => Normal (degeneracyGuard (beforeGuard props scale dataMin dataMax))
    end.

(** [rangeFn] with the [else if (scale.distr === 4)] arm of lines 114-117
    deleted, to compare with [rangeFn] as it is written. *)
Definition distrRange_noAsinh (props : ScaleProps) (scale : ScaleState)
    (dataMin dataMax : jsnum) : Range.MinMax :=
  let distr := u_distr scale in
  if strict_eq_num distr 1 || strict_eq_num distr 2 || strict_eq_num distr 4 then
    let '(mn, mx) := paddingArgs props dataMin dataMax in
    rangeNum mn mx (rangeConfig props)
  else if strict_eq_num distr 3 then
    rangeLog dataMin dataMax (nullish_coalesce (u_log scale) (Num 10)) true
  else (dataMin, dataMax).

Definition rangeFn_noAsinh (props : ScaleProps) (u : uPlot) (dataMin dataMax : jsnum)
    (scaleKey : string) : completion Range.MinMax :=
  let scale := scales u !! scaleKey in
  let minMax := (dataMin, dataMax) in
  if noData props dataMin dataMax then Normal minMax
  else
    match scale with
    | None => TypeError
    | Some scale =>
        Normal (degeneracyGuard
                  (hardOverride props
                     (decimalSnap props (distrRange_noAsinh props scale dataMin dataMax))))
    end.

(** [getConfig()]: the object with the single property [[scaleKey]]. *)
Definition getConfig (props : ScaleProps) : gmap string Scale :=
  let scaleKey := ScaleProps.scaleKey props in
  let isTime := ScaleProps.isTime props in
  let distribution := distribution props in
  let auto := negb (truthy_bool isTime) && negb (hasFixedRange props) in
  let '(auto, range) :=
    if isBooleanUnit scaleKey
    then (false, Some (RangeMinMax (Num 0, Num 1)))
    else (auto, ScaleProps.range props) in
  {[ scaleKey :=
       {| Scale.time := isTime;
          Scale.auto := auto;
          Scale.range := default (RangeFunction (rangeFn props)) range;
          Scale.dir := ScaleProps.direction props;
          Scale.ori := ScaleProps.orientation props;
          Scale.distr := d_distr <$> distribution;
          Scale.log := d_log <$> distribution;
          Scale.asinh := d_asinh <$> distribution |} ]}.

End Builder.

End UPlotScaleBuilder.

Import UPlotScaleBuilder.

(* ===================================================================== *)
(** ** The range function and its arrays *)
(* ===================================================================== *)

(** [rangeFn] again, this time with the arrays it works on: [minMax] is a
    reference, the library's functions return references, and lines 120-136
    write to the array [minMax] refers to. *)

(** The arrays of the running program, by reference, next to the state the
    uPlot library keeps for itself. *)
Record World (L : Type) : Type := {
  arrays : gmap positive Range.MinMax;
  lib : L;
}.
Arguments arrays {L} w.
Arguments lib {L} w.

(** uPlot's ranging functions as the caller meets them: each hands back a
    reference to an array, and is free to keep state and to write to any
    array it can reach. *)
Class uPlotObj : Type := {
  LibState : Type;
  rangeNumO : jsnum -> jsnum -> Range.Config -> World LibState -> positive * World LibState;
  rangeLogO : jsnum -> jsnum -> jsnum -> bool -> World LibState -> positive * World LibState;
  rangeAsinhO : jsnum -> jsnum -> jsnum -> bool -> World LibState -> positive * World LibState;
}.

Module UPlotScaleBuilderObj.

Section Arrays.
Context {L : Type}.

(** An array literal [[a, b]]: a new array. *)
Definition newArray (mm : Range.MinMax) (w : World L) : positive * World L :=
  let l := fresh (dom (arrays w)) in
  (l, {| arrays := <[l := mm]> (arrays w); lib := lib w |}).

(** [minMax[0]] and [minMax[1]] *)
Definition getAt0 (l : positive) (w : World L) : jsnum :=
  match (arrays w !! l : option Range.MinMax) with
  | Some mm => fst mm
  | None => Undefined
  end.

Definition getAt1 (l : positive) (w : World L) : jsnum :=
  match (arrays w !! l : option Range.MinMax) with
  | Some mm => snd mm
  | None => Undefined
  end.

(** [minMax[0] = v] and [minMax[1] = v] *)
Definition setAt0 (l : positive) (v : jsnum) (w : World L) : World L :=
  {| arrays := alter (fun mm => (v, snd mm)) l (arrays w); lib := lib w |}.

Definition setAt1 (l : positive) (v : jsnum) (w : World L) : World L :=
  {| arrays := alter (fun mm => (fst mm, v)) l (arrays w); lib := lib w |}.

End Arrays.

Section BuilderObj.
Context {S : GrafanaSchema} {O : uPlotObj} {D : GrafanaData}.

(** Lines 101-117: [minMax] is rebound to the array the library returns. *)
Definition distrRangeO (props : ScaleProps) (scale : ScaleState) (dataMin dataMax : jsnum)
    (minMax : positive) (w : World LibState) : positive * World LibState :=
  let distr := u_distr scale in
  if strict_eq_num distr 1 || strict_eq_num distr 2 || strict_eq_num distr 4 then
    let '(mn, mx) := paddingArgs props dataMin dataMax in
    rangeNumO mn mx (rangeConfig props) w
  else if strict_eq_num distr 3 then
    rangeLogO dataMin dataMax (nullish_coalesce (u_log scale) (Num 10)) true w
  else if strict_eq_num distr 4 then
    rangeAsinhO dataMin dataMax (nullish_coalesce (u_log scale) (Num 10)) false w
  else (minMax, w).

(** Lines 119-122: two writes to the array. *)
Definition decimalSnapO (props : ScaleProps) (minMax : positive)
    (w : World LibState) : World LibState :=
  if strict_eq_num (ScaleProps.decimals props) 0 then
    let w := setAt0 minMax (Num (incrRoundDn (getAt0 minMax w) 1)) w in
    setAt1 minMax (Num (incrRoundUp (getAt1 minMax w) 1)) w
  else w.

(** Lines 124-131. *)
Definition hardOverrideO (props : ScaleProps) (minMax : positive)
    (w : World LibState) : World LibState :=
  let w := if hardMinOnly props then setAt0 minMax (ScaleProps.min props) w else w in
  if hardMaxOnly props then setAt1 minMax (ScaleProps.max props) w else w.

(** Lines 133-137. *)
Definition degeneracyGuardO (minMax : positive) (w : World LibState) : World LibState :=
  if ge (getAt0 minMax w) (getAt1 minMax w)
  then setAt1 minMax (Num 100) (setAt0 minMax (Num 0) w)
  else w.

(** [rangeFn] with its arrays: the result is a reference, and the world
    after the call. *)
Definition rangeFnO (props : ScaleProps) (u : uPlot) (dataMin dataMax : jsnum)
    (scaleKey : string) (w : World LibState) : completion (positive * World LibState) :=
  let scale := scales u !! scaleKey in
  let '(minMax, w) := newArray (dataMin, dataMax) w in
  if noData props dataMin dataMax then Normal (minMax, w)
  else
    match scale with
    | None => TypeError
    | Some scale =>
        let '(minMax, w) := distrRangeO props scale dataMin dataMax minMax w in
        let w := decimalSnapO props minMax w in
        let w := hardOverrideO props minMax w in
        let w := degeneracyGuardO minMax w in
        Normal (minMax, w)
    end.

End BuilderObj.

End UPlotScaleBuilderObj.
Import UPlotScaleBuilderObj.

(** What a call of a library function did when it returned [out] from the
    world [w]: the array is a new one holding [r], and the arrays that were
    there are as they were. *)
Definition returned_fresh {L : Type} (r : Range.MinMax) (w : World L)
    (out : positive * World L) : Prop :=
  arrays w !! out.1 = None /\
  arrays out.2 !! out.1 = Some r /\
  forall l, is_Some (arrays w !! l) -> arrays out.2 !! l = arrays w !! l.

(** The library [O] computes what [U] computes and returns it in a new
    array each time, as uPlot's [rangeNum], [rangeLog] and [rangeAsinh] do
    ([return [minLim, maxLim]]). *)
Definition returns_fresh_arrays (U : uPlotLib) (O : uPlotObj) : Prop :=
  (forall mn mx cfg w, returned_fresh (rangeNum mn mx cfg) w (rangeNumO mn mx cfg w)) /\
  (forall mn mx base full w,
     returned_fresh (rangeLog mn mx base full) w (rangeLogO mn mx base full w)) /\
  (forall mn mx base full w,
     returned_fresh (rangeAsinh mn mx base full) w (rangeAsinhO mn mx base full w)).

(** The library that allocates a new array for every result. *)
Definition allocating_uPlot (U : uPlotLib) : uPlotObj := {|
  LibState := unit;
  rangeNumO := fun mn mx cfg w => newArray (rangeNum mn mx cfg) w;
  rangeLogO := fun mn mx base full w => newArray (rangeLog mn mx base full) w;
  rangeAsinhO := fun mn mx base full w => newArray (rangeAsinh mn mx base full) w;
|}.

(** A library that keeps the array of its first [rangeNum] result and hands
    the same array back on later calls. *)
Definition caching_uPlot (U : uPlotLib) : uPlotObj := {|
  LibState := option positive;
  rangeNumO := fun mn mx cfg w =>
    match lib w with
    | Some l => (l, w)
    | None =>
        let '(l, w') := newArray (rangeNum mn mx cfg) w in
        (l, {| arrays := arrays w'; lib := Some l |})
    end;
  rangeLogO := fun mn mx base full w => newArray (rangeLog mn mx base full) w;
  rangeAsinhO := fun mn mx base full w => newArray (rangeAsinh mn mx base full) w;
|}.

Definition empty_world {L : Type} (s : L) : World L := {| arrays := ∅; lib := s |}.

(** [w'] is [w] with the array [l] now holding [r]. *)
Definition wrote {L : Type} (l : positive) (r : Range.MinMax) (w w' : World L) : Prop :=
  arrays w' !! l = Some r /\
  forall l', l' <> l -> arrays w' !! l' = arrays w !! l'.

(** *** The quantities the statements below are about *)

Section Views.
Context {S : GrafanaSchema}.

(** The discriminator, log base and linear threshold [getConfig] derives
    from the [distribution] property, read off the enumeration. *)
Definition discriminator (distr : option ScaleDistribution) : jsnum :=
  match distr with
  | Some Symlog => Num 4
  | Some Log => Num 3
  | Some Ordinal => Num 2
  | Some Linear | None => Num 1
  end.

Definition logBase (props : ScaleProps) : jsnum :=
  match ScaleProps.distribution props with
  | Some Log | Some Symlog => nullish_coalesce (ScaleProps.log props) (Num 2)
  | _ => Undefined
  end.

Definition asinhThreshold (props : ScaleProps) : jsnum :=
  match ScaleProps.distribution props with
  | Some Symlog => nullish_coalesce (ScaleProps.linearThreshold props) (Num 1)
  | _ => Undefined
  end.

(** The radius of the centred extent: the larger of the two absolute values,
    [null] counting as 0. *)
Definition centeredRadius (dataMin dataMax : jsnum) : float :=
  Math_max (Math_abs dataMin) (Math_abs dataMax).

End Views.

(** *** Concrete inputs *)

(** A builder's properties over the numeric schema, with the layout fields
    set to [ScaleOrientation.Vertical] and [ScaleDirection.Up] (both 1). *)
Definition props_of (scaleKey : string) (isTime : option bool)
    (min max softMin softMax : jsnum) (range : option ScaleRange)
    (distribution : option ScaleDistribution) (log linearThreshold : jsnum)
    (centeredZero : option bool) (decimals : jsnum) : @ScaleProps numeric_GrafanaSchema :=
  @ScaleProps.Build_t numeric_GrafanaSchema scaleKey isTime min max softMin softMax
    range distribution 1%Z 1%Z log linearThreshold centeredZero decimals.

(** A numeric scale on key [y] with the given bounds and flags. *)
Definition y_props (min max softMin softMax : jsnum) (centeredZero : option bool)
    (decimals : jsnum) : @ScaleProps numeric_GrafanaSchema :=
  props_of "y" None min max softMin softMax None None Undefined Undefined
    centeredZero decimals.

(** A plot whose only scale is [y], with the given discriminator. *)
Definition y_plot (distr : jsnum) : uPlot :=
  {| scales := {[ "y" := {| u_distr := distr; u_log := Undefined |} ]} |}.

(** The state of a linear scale, as the plots below hold it under [y]. *)
Definition linear_scale : ScaleState := {| u_distr := Num 1; u_log := Undefined |}.

(** A plot with a second scale next to [y]. *)
Definition xy_plot : uPlot :=
  {| scales := {[ "y" := linear_scale;
                  "x" := {| u_distr := Num 2; u_log := Undefined |} ]} |}.

(** [rangeFn] and [getConfig] over the stand-in library, the modelled
    helpers and the numeric schema. *)
Definition run_rangeFn :=
  @rangeFn numeric_GrafanaSchema sample_uPlot spec_GrafanaData.

Definition run_getConfig :=
  @getConfig numeric_GrafanaSchema sample_uPlot spec_GrafanaData.

(** *** Ranks and presence of bounds *)

(** A rank for binary64 values: an integer that orders the numbers as the
    comparisons do.  A finite [m * 2^e] has [m < 2^53] and [-1074 <= e], so
    [(e + 1075) * 2^53 + m] grows with the value; the infinities lie beyond
    every finite rank, and both zeros have rank 0. *)
Definition SFord (f : spec_float) : Z :=
  match f with
  | S754_zero _ => 0
  | S754_infinity s => if s then (- 2 ^ 64)%Z else (2 ^ 64)%Z
  | S754_nan => 0
  | S754_finite s m e =>
      if s then (- ((e + 1075) * 2 ^ 53 + Zpos m))%Z
      else ((e + 1075) * 2 ^ 53 + Zpos m)%Z
  end.

Definition float_ord (x : float) : Z := SFord (Prim2SF x).

(** The mantissa and exponent ranges of binary64. *)
Definition SF_bounded (f : spec_float) : Prop :=
  match f with
  | S754_finite _ m e => (Zpos m < 2 ^ 53 /\ -1074 <= e <= 971)%Z
  | _ => True
  end.

(** A present bound that is not [NaN]; absent bounds pass. *)
Definition not_NaN (v : jsnum) : bool :=
  match v with
  | Num x => negb (is_nan x)
  | _ => true
  end.

(** The rank of a bound for ['min'] and for ['max']: an absent bound ranks
    above every number for ['min'] and below every number for ['max']. *)
Definition bound_rank (t : minmax_tag) (v : jsnum) : Z :=
  match v, t with
  | Num x, _ => float_ord x
  | _, tag_min => (2 ^ 65)%Z
  | _, tag_max => (- 2 ^ 65)%Z
  end.

Definition rank_pick (t : minmax_tag) : Z -> Z -> Z :=
  match t with tag_min => Z.min | tag_max => Z.max end.

(** Two bounds that a reader cannot tell apart: both absent, or numbers that
    are [===]. *)
Definition same_bound (u v : jsnum) : bool :=
  match u, v with
  | Num x, Num y => x =? y
  | Num _, _ | _, Num _ => false
  | _, _ => true
  end.

(** Every present [min] and [max] of the series is a number other than [NaN]. *)
Definition bounds_not_NaN {S : GrafanaSchema} (p : ScaleProps) : bool :=
  not_NaN (ScaleProps.min p) && not_NaN (ScaleProps.max p).

(* ===================================================================== *)
(** ** Facts about binary64 comparison *)
(* ===================================================================== *)

Section FloatOrder.

Lemma SFcompare_antisym (a b : spec_float) :
  SFcompare b a = option_map CompOpp (SFcompare a b).
Proof.
  destruct a as [sa|sa| |sa ma ea], b as [sb|sb| |sb mb eb]; simpl;
    try reflexivity; try (destruct sa; reflexivity); try (destruct sb; reflexivity);
    try (destruct sa, sb; reflexivity).
  assert (Hm : Pos.compare_cont Eq mb ma = CompOpp (Pos.compare_cont Eq ma mb))
    by (rewrite Pos.compare_cont_antisym; reflexivity).
  destruct sa, sb; simpl; try reflexivity;
    rewrite (Z.compare_antisym ea eb), Hm;
    destruct (ea ?= eb)%Z; simpl; reflexivity.
Qed.

Lemma SFcompare_refl (a : spec_float) :
  a <> S754_nan -> SFcompare a a = Some Eq.
Proof.
  destruct a as [s|s| |s m e]; simpl; intros Hn; try congruence.
  - destruct s; reflexivity.
  - destruct s; rewrite Z.compare_refl;
      change (Pos.compare_cont Eq m m) with (m ?= m)%positive;
      rewrite Pos.compare_refl; reflexivity.
Qed.

Lemma SFcompare_nan_iff (a b : spec_float) :
  SFcompare a b = None <-> a = S754_nan \/ b = S754_nan.
Proof.
  split.
  - destruct a, b; simpl; intros H; try discriminate; auto.
  - intros [-> | ->]; [reflexivity | destruct a; reflexivity].
Qed.

Lemma is_nan_Prim2SF (x : float) :
  is_nan x = true <-> Prim2SF x = S754_nan.
Proof.
  unfold is_nan. rewrite FloatAxioms.eqb_spec. unfold SFeqb. split.
  - intros H. destruct (Prim2SF x) eqn:E; try reflexivity;
      rewrite SFcompare_refl in H by congruence; discriminate.
  - intros ->. reflexivity.
Qed.

Lemma is_nan_false_Prim2SF (x : float) :
  is_nan x = false <-> Prim2SF x <> S754_nan.
Proof.
  destruct (is_nan_Prim2SF x) as [H1 H2].
  destruct (is_nan x); split; intros H; try congruence.
  - exfalso. apply H. apply H1. reflexivity.
  - intros E. apply H2 in E. discriminate.
Qed.

(** [x < x] never holds. *)
Lemma ltb_irrefl (x : float) : (x <? x) = false.
Proof.
  rewrite FloatAxioms.ltb_spec. unfold SFltb.
  destruct (Prim2SF x) eqn:E; try reflexivity;
    rewrite SFcompare_refl by congruence; reflexivity.
Qed.

(** [a < b] excludes [b < a]. *)
Lemma ltb_asym (a b : float) : (a <? b) = true -> (b <? a) = false.
Proof.
  rewrite !FloatAxioms.ltb_spec. unfold SFltb.
  rewrite (SFcompare_antisym (Prim2SF a) (Prim2SF b)).
  destruct (SFcompare (Prim2SF a) (Prim2SF b)) as [[]|]; simpl; congruence.
Qed.

(** [a < b] gives [a <= b]. *)
Lemma ltb_leb (a b : float) : (a <? b) = true -> (a <=? b) = true.
Proof.
  rewrite FloatAxioms.ltb_spec, FloatAxioms.leb_spec. unfold SFltb, SFleb.
  destruct (SFcompare (Prim2SF a) (Prim2SF b)) as [[]|]; simpl; congruence.
Qed.

(** On numbers other than [NaN] the order is total: [not (b <= a)] is [a < b]. *)
Lemma leb_false_ltb (a b : float) :
  is_nan a = false -> is_nan b = false -> (b <=? a) = false -> (a <? b) = true.
Proof.
  intros Ha Hb. apply is_nan_false_Prim2SF in Ha, Hb. revert Ha Hb.
  rewrite FloatAxioms.ltb_spec, FloatAxioms.leb_spec. unfold SFltb, SFleb. intros Ha Hb.
  rewrite (SFcompare_antisym (Prim2SF a) (Prim2SF b)).
  destruct (SFcompare (Prim2SF a) (Prim2SF b)) as [[]|] eqn:E; simpl; try congruence.
  apply SFcompare_nan_iff in E. tauto.
Qed.

Lemma ltb_false_leb (a b : float) :
  is_nan a = false -> is_nan b = false -> (a <? b) = false -> (b <=? a) = true.
Proof.
  intros Ha Hb. apply is_nan_false_Prim2SF in Ha, Hb. revert Ha Hb.
  rewrite FloatAxioms.ltb_spec, FloatAxioms.leb_spec. unfold SFltb, SFleb. intros Ha Hb.
  rewrite (SFcompare_antisym (Prim2SF a) (Prim2SF b)).
  destruct (SFcompare (Prim2SF a) (Prim2SF b)) as [[]|] eqn:E; simpl; try congruence.
  apply SFcompare_nan_iff in E. tauto.
Qed.

Lemma leb_refl (a : float) : is_nan a = false -> (a <=? a) = true.
Proof.
  intros Ha. apply is_nan_false_Prim2SF in Ha.
  rewrite FloatAxioms.leb_spec. unfold SFleb.
  rewrite SFcompare_refl by assumption. reflexivity.
Qed.

(** Unary minus is an involution, [NaN] included. *)
Lemma opp_involutive (x : float) : - - x = x.
Proof.
  apply Prim2SF_inj. rewrite !FloatAxioms.opp_spec.
  destruct (Prim2SF x) as [s|s| |s m e]; simpl; rewrite ?negb_involutive; reflexivity.
Qed.

End FloatOrder.


(* ===================================================================== *)
(** ** Facts about [Math.floor] and [Math.ceil] *)
(* ===================================================================== *)

Section FloatFloor.
Local Open Scope Z_scope.

Lemma digits2_pos_bounds (p : positive) :
  2 ^ (Zpos (digits2_pos p) - 1) <= Zpos p < 2 ^ Zpos (digits2_pos p).
Proof.
  induction p as [p IH|p IH|]; cbn [digits2_pos].
  - rewrite Pos2Z.inj_succ, (Pos2Z.inj_xI p).
    replace (Z.succ (Zpos (digits2_pos p)) - 1) with (Z.succ (Zpos (digits2_pos p) - 1)) by lia.
    rewrite !Z.pow_succ_r by lia. lia.
  - rewrite Pos2Z.inj_succ, (Pos2Z.inj_xO p).
    replace (Z.succ (Zpos (digits2_pos p)) - 1) with (Z.succ (Zpos (digits2_pos p) - 1)) by lia.
    rewrite !Z.pow_succ_r by lia. lia.
  - simpl. lia.
Qed.

Lemma digits2_pos_le (p : positive) (n : Z) :
  0 <= n -> Zpos p < 2 ^ n -> Zpos (digits2_pos p) <= n.
Proof.
  intros Hn Hp. destruct (digits2_pos_bounds p) as [Hlo _].
  destruct (Z.le_gt_cases (Zpos (digits2_pos p)) n) as [H|H]; [exact H|exfalso].
  assert (2 ^ n <= 2 ^ (Zpos (digits2_pos p) - 1)) by (apply Z.pow_le_mono_r; lia).
  lia.
Qed.

Lemma digits2_pos_ge (p : positive) (n : Z) :
  2 ^ n <= Zpos p -> n + 1 <= Zpos (digits2_pos p).
Proof.
  intros Hp. destruct (digits2_pos_bounds p) as [_ Hhi].
  destruct (Z.le_gt_cases (n + 1) (Zpos (digits2_pos p))) as [H|H]; [exact H|exfalso].
  assert (2 ^ Zpos (digits2_pos p) <= 2 ^ n) by (apply Z.pow_le_mono_r; lia).
  lia.
Qed.

Lemma digits2_pos_iter_xO (p k : positive) :
  digits2_pos (Pos.iter xO p k) = (digits2_pos p + k)%positive.
Proof.
  induction k as [|k IH] using Pos.peano_ind.
  - simpl. rewrite Pos.add_1_r. reflexivity.
  - rewrite Pos.iter_succ. cbn [digits2_pos]. rewrite IH, Pos.add_succ_r. reflexivity.
Qed.

Lemma iter_xO_value (p k : positive) :
  Zpos (Pos.iter xO p k) = Zpos p * 2 ^ Zpos k.
Proof.
  change (Pos.iter xO p k) with (shift_pos k p).
  rewrite shift_pos_correct. change (Z.pow_pos 2 k) with (2 ^ Zpos k). lia.
Qed.

Lemma binary_round_aux_exact (s : bool) (mz : positive) (ez : Z) :
  fexp prec emax (Zpos (digits2_pos mz) + ez) = ez ->
  ez <= emax - prec ->
  binary_round_aux prec emax s (Zpos mz) ez loc_Exact = S754_finite s mz ez.
Proof.
  intros Hf He. unfold binary_round_aux, shr_fexp.
  cbn [Zdigits2 shr_record_of_loc]. rewrite Hf, Z.sub_diag.
  cbn [shr shr_m loc_of_shr_record round_nearest_even Zdigits2 shr_record_of_loc].
  rewrite Hf, Z.sub_diag. cbn [shr shr_m].
  apply Z.leb_le in He. rewrite He. reflexivity.
Qed.

(** A positive integer of at most 53 bits is normalised by shifting it up
    to 53 bits. *)
Lemma binary_normalize_small (p : positive) :
  Zpos (digits2_pos p) <= 53 ->
  exists mz ez,
    binary_normalize prec emax (Zpos p) 0 false = S754_finite false mz ez /\
    ez = Zpos (digits2_pos p) - 53 /\
    Zpos mz = Zpos p * 2 ^ (- ez).
Proof.
  intros Hd. unfold binary_normalize, binary_round.
  assert (Hf : fexp prec emax (Zpos (digits2_pos p) + 0) = Zpos (digits2_pos p) - 53)
    by (unfold fexp, SpecFloat.emin, prec, emax; lia).
  rewrite Hf. unfold shl_align.
  destruct (Zpos (digits2_pos p) - 53 - 0) as [|k|k] eqn:Hk; try lia.
  - exists p, 0. rewrite binary_round_aux_exact.
    + repeat split; [lia|]. rewrite Z.mul_1_r. reflexivity.
    + rewrite Hf. lia.
    + unfold prec, emax. lia.
  - exists (Pos.iter xO p k), (Zpos (digits2_pos p) - 53).
    rewrite binary_round_aux_exact.
    + repeat split. rewrite iter_xO_value. f_equal. f_equal. lia.
    + rewrite digits2_pos_iter_xO, Pos2Z.inj_add.
      unfold fexp, SpecFloat.emin, prec, emax. lia.
    + unfold prec, emax. lia.
Qed.


Lemma is_finite_Prim2SF (x : float) : is_finite x = SF_finite (Prim2SF x).
Proof.
  unfold is_finite, is_infinity, is_nan.
  rewrite !FloatAxioms.eqb_spec, FloatAxioms.abs_spec.
  change (Prim2SF infinity) with (S754_infinity false).
  destruct (Prim2SF x) as [s|s| |s m e]; try reflexivity.
  - destruct s; reflexivity.
  - unfold SFeqb. rewrite SFcompare_refl by discriminate.
    destruct s; reflexivity.
Qed.

Lemma Prim2SF_finite_valid (x : float) (s : bool) (m : positive) (e : Z) :
  Prim2SF x = S754_finite s m e ->
  Zpos (digits2_pos m) <= 53 /\ (Zpos (digits2_pos m) = 53 \/ e = -1074) /\
  -1074 <= e <= 971.
Proof.
  intros Hx. pose proof (Prim2SF_valid x) as Hv. rewrite Hx in Hv.
  unfold SpecFloat.valid_binary, bounded, canonical_mantissa in Hv.
  apply andb_true_iff in Hv as [Hc Hb].
  apply Z.eqb_eq in Hc. apply Z.leb_le in Hb.
  unfold fexp, SpecFloat.emin, prec, emax in *. lia.
Qed.

Lemma Prim2SF_float_of_Z_pos (p : positive) :
  Zpos (digits2_pos p) <= 53 ->
  exists mz ez,
    Prim2SF (float_of_Z (Zpos p)) = S754_finite false mz ez /\
    ez = Zpos (digits2_pos p) - 53 /\
    Zpos mz = Zpos p * 2 ^ (- ez).
Proof.
  intros Hd. unfold float_of_Z. rewrite of_uint63_spec, Uint63.of_Z_spec.
  rewrite Z.mod_small; [apply binary_normalize_small; exact Hd|].
  destruct (digits2_pos_bounds p) as [_ Hhi].
  assert (2 ^ Zpos (digits2_pos p) <= 2 ^ 53) by (apply Z.pow_le_mono_r; lia).
  assert (2 ^ 53 < Uint63.wB) by reflexivity.
  lia.
Qed.

Lemma Prim2SF_float_of_Z_neg (p : positive) :
  Zpos (digits2_pos p) <= 53 ->
  exists mz ez,
    Prim2SF (float_of_Z (Zneg p)) = S754_finite true mz ez /\
    ez = Zpos (digits2_pos p) - 53 /\
    Zpos mz = Zpos p * 2 ^ (- ez).
Proof.
  intros Hd. destruct (Prim2SF_float_of_Z_pos p Hd) as (mz & ez & Hf & He & Hm).
  exists mz, ez. unfold float_of_Z in *. rewrite FloatAxioms.opp_spec, Hf.
  repeat split; assumption.
Qed.

(** The integer behind [Math_floor] on a finite value with fractional bits. *)
Lemma shiftl_floor (s : bool) (m : positive) (e : Z) :
  e < 0 ->
  Z.shiftl (signed_mantissa s m) e * 2 ^ (- e) <= signed_mantissa s m
    < (Z.shiftl (signed_mantissa s m) e + 1) * 2 ^ (- e).
Proof.
  intros He.
  replace e with (- - e) at 1 3 by lia.
  rewrite Z.shiftl_opp_r, Z.shiftr_div_pow2 by lia.
  assert (Hp : 0 < 2 ^ (- e)) by (apply Z.pow_pos_nonneg; lia).
  pose proof (Z.div_mod (signed_mantissa s m) (2 ^ (- e))) as Hdm.
  pose proof (Z.mod_pos_bound (signed_mantissa s m) (2 ^ (- e)) Hp) as Hmod.
  nia.
Qed.


Lemma shiftl_small (s : bool) (m : positive) (e : Z) :
  e < 0 -> Z.abs (Z.shiftl (signed_mantissa s m) e) <= Zpos m.
Proof.
  intros He. pose proof (shiftl_floor s m e He) as Hz.
  assert (Hp : 1 <= 2 ^ (- e)) by (apply (Z.pow_le_mono_r 2 0); lia).
  destruct s; cbn [signed_mantissa] in *; nia.
Qed.

Lemma small_digits (q m : positive) :
  Zpos q <= Zpos m -> Zpos (digits2_pos m) <= 53 -> Zpos (digits2_pos q) <= 53.
Proof.
  intros Hq Hm. apply digits2_pos_le; [lia|].
  destruct (digits2_pos_bounds m) as [_ Hhi].
  assert (2 ^ Zpos (digits2_pos m) <= 2 ^ 53) by (apply Z.pow_le_mono_r; lia).
  lia.
Qed.

Lemma SF_is_integer_scaled (s : bool) (mz : positive) (ez q : Z) :
  Zpos mz = q * 2 ^ (- ez) -> SF_is_integer (S754_finite s mz ez) = true.
Proof.
  intros Hm. cbn [SF_is_integer].
  destruct (Z.leb_spec 0 ez) as [H|H]; [reflexivity|]. cbn [orb].
  rewrite Hm, Z.mod_mul; [reflexivity|].
  apply Z.pow_nonzero; lia.
Qed.

(** [Math.floor] of a finite number is an integer. *)
Lemma Math_floor_integer (x : float) :
  is_finite x = true -> is_integer (Math_floor x) = true.
Proof.
  rewrite is_finite_Prim2SF. unfold is_integer, Math_floor. intros Hf.
  destruct (Prim2SF x) as [s|s| |s m e] eqn:Hx; try discriminate.
  - rewrite Hx. reflexivity.
  - destruct (Z.ltb_spec e 0) as [He|He].
    + destruct (Prim2SF_finite_valid x s m e Hx) as (Hd & _ & _).
      pose proof (shiftl_small s m e He) as Hz.
      destruct (Z.shiftl (signed_mantissa s m) e) as [|q|q].
      * reflexivity.
      * destruct (Prim2SF_float_of_Z_pos q) as (mz & ez & Hq & _ & Hmz);
          [apply (small_digits q m); [lia | exact Hd]|].
        rewrite Hq. apply (SF_is_integer_scaled _ _ _ _ Hmz).
      * destruct (Prim2SF_float_of_Z_neg q) as (mz & ez & Hq & _ & Hmz);
          [apply (small_digits q m); [lia | exact Hd]|].
        rewrite Hq. apply (SF_is_integer_scaled _ _ _ _ Hmz).
    + rewrite Hx. cbn [SF_is_integer]. apply Z.leb_le in He. rewrite He. reflexivity.
Qed.

Lemma compare_cont_Eq_Z (a b : positive) :
  Pos.compare_cont Eq a b = (Zpos a ?= Zpos b).
Proof. reflexivity. Qed.

(** [Math.floor] of a finite number is not above it. *)
Lemma Math_floor_le (x : float) :
  is_finite x = true -> (Math_floor x <=? x)%float = true.
Proof.
  intros Hfin. pose proof Hfin as Hf. rewrite is_finite_Prim2SF in Hf.
  assert (Hnan : is_nan x = false)
    by (unfold is_finite in Hfin; destruct (is_nan x); [discriminate | reflexivity]).
  unfold Math_floor.
  destruct (Prim2SF x) as [s|s| |s m e] eqn:Hx; try discriminate.
  - apply leb_refl; exact Hnan.
  - destruct (Z.ltb_spec e 0) as [He|He]; [|apply leb_refl; exact Hnan].
    destruct (Prim2SF_finite_valid x s m e Hx) as (Hd & Hcanon & Hrange).
    pose proof (shiftl_small s m e He) as Hz.
    pose proof (shiftl_floor s m e He) as Hfl.
    pose proof (digits2_pos_bounds m) as Hm.
    assert (Hp : 1 <= 2 ^ (- e)) by (apply (Z.pow_le_mono_r 2 0); lia).
    rewrite FloatAxioms.leb_spec, Hx. unfold SFleb.
    destruct (Z.shiftl (signed_mantissa s m) e) as [|q|q].
    + destruct s; cbn [signed_mantissa] in Hfl; [nia|]. reflexivity.
    + destruct s; cbn [signed_mantissa] in Hfl; [nia|].
      destruct (Prim2SF_float_of_Z_pos q) as (mz & ez & Hq & Hez & Hmz);
        [apply (small_digits q m); [lia | exact Hd]|].
      rewrite Hq. cbn [SFcompare]. rewrite compare_cont_Eq_Z.
      assert (Hle : ez <= e).
      { assert (Hq53 : Zpos q * 2 ^ (- e) < 2 ^ 53).
        { assert (2 ^ Zpos (digits2_pos m) <= 2 ^ 53) by (apply Z.pow_le_mono_r; lia).
          lia. }
        assert (He53 : - e < 53).
        { destruct (Z.lt_ge_cases (- e) 53) as [H|H]; [exact H|exfalso].
          assert (2 ^ 53 <= 2 ^ (- e)) by (apply Z.pow_le_mono_r; lia). nia. }
        assert (Zpos (digits2_pos q) <= 53 + e); [|lia].
        apply digits2_pos_le; [lia|].
        replace (2 ^ 53) with (2 ^ (53 + e) * 2 ^ (- e)) in Hq53
          by (rewrite <- Z.pow_add_r by lia; f_equal; lia).
        nia. }
      destruct (Z.compare_spec ez e) as [Heq|Hlt|Hgt]; [|reflexivity|lia].
      subst ez. rewrite Heq in Hmz.
      destruct (Z.compare_spec (Zpos mz) (Zpos m)); [reflexivity|reflexivity|lia].
    + destruct s; cbn [signed_mantissa] in Hfl; [|nia].
      destruct (Prim2SF_float_of_Z_neg q) as (mz & ez & Hq & Hez & Hmz);
        [apply (small_digits q m); [lia | exact Hd]|].
      rewrite Hq. cbn [SFcompare]. rewrite compare_cont_Eq_Z.
      assert (Hge : e <= ez).
      { destruct Hcanon as [H53|Hmin]; [|pose proof (Pos2Z.is_pos (digits2_pos q)); lia].
        destruct (Z.le_gt_cases 53 (- e)) as [Hbig|Hsmall];
          [pose proof (Pos2Z.is_pos (digits2_pos q)); lia|].
        assert (52 - - e + 1 <= Zpos (digits2_pos q)); [|lia].
        apply digits2_pos_ge.
        rewrite H53 in Hm. replace (53 - 1) with (52 - - e + - e) in Hm by lia.
        rewrite Z.pow_add_r in Hm by lia.
        nia. }
      destruct (Z.compare_spec ez e) as [Heq|Hlt|Hgt]; [|lia|reflexivity].
      subst ez. rewrite Heq in Hmz.
      destruct (Z.compare_spec (Zpos mz) (Zpos m)); [reflexivity|lia|reflexivity].
Qed.


Lemma SFcompare_opp (a b : spec_float) :
  SFcompare (SFopp b) (SFopp a) = SFcompare a b.
Proof.
  rewrite (SFcompare_antisym (SFopp a) (SFopp b)).
  destruct a as [sa|sa| |sa ma ea], b as [sb|sb| |sb mb eb]; cbn [SFopp SFcompare option_map];
    try reflexivity;
    try (destruct sa; reflexivity); try (destruct sb; reflexivity);
    try (destruct sa, sb; reflexivity).
  destruct sa, sb; cbn [negb CompOpp option_map]; try reflexivity;
    destruct (ea ?= eb); cbn [CompOpp]; try reflexivity;
    rewrite ?CompOpp_involutive; reflexivity.
Qed.

Lemma leb_opp (a b : float) : (- b <=? - a)%float = (a <=? b)%float.
Proof.
  rewrite !FloatAxioms.leb_spec, !FloatAxioms.opp_spec. unfold SFleb.
  rewrite SFcompare_opp. reflexivity.
Qed.

Lemma is_finite_opp (x : float) : is_finite (- x) = is_finite x.
Proof.
  rewrite !is_finite_Prim2SF, FloatAxioms.opp_spec.
  destruct (Prim2SF x); reflexivity.
Qed.

Lemma is_integer_opp (x : float) : is_integer (- x) = is_integer x.
Proof.
  unfold is_integer. rewrite FloatAxioms.opp_spec.
  destruct (Prim2SF x); reflexivity.
Qed.

(** [Math.ceil] of a finite number is an integer, and not below it. *)
Lemma Math_ceil_integer (x : float) :
  is_finite x = true -> is_integer (Math_ceil x) = true.
Proof.
  intros Hf. unfold Math_ceil. rewrite is_integer_opp.
  apply Math_floor_integer. rewrite is_finite_opp. exact Hf.
Qed.

Lemma Math_ceil_ge (x : float) :
  is_finite x = true -> (x <=? Math_ceil x)%float = true.
Proof.
  intros Hf. unfold Math_ceil.
  rewrite <- (opp_involutive x) at 1. rewrite leb_opp.
  apply Math_floor_le. rewrite is_finite_opp. exact Hf.
Qed.

(** Rounding [-r] down is minus rounding [r] up. *)
Lemma Math_floor_opp (r : float) : Math_floor (- r) = (- Math_ceil r)%float.
Proof. unfold Math_ceil. rewrite opp_involutive. reflexivity. Qed.

End FloatFloor.

(** [Math.floor], [Math.ceil], [Number.isInteger] and [Math.max] on a few
    values. *)
Example floor_examples :
  Math_floor 2.5 = 2 /\ Math_floor (-2.5) = -3 /\ Math_floor 0.5 = 0 /\
  Math_floor (-0.5) = -1 /\ Math_floor 7 = 7 /\ Math_floor 0x1p+80 = 0x1p+80 /\
  Math_ceil 2.5 = 3 /\ Math_ceil (-2.5) = -2 /\ Math_ceil (-0.5) = neg_zero /\
  Math_ceil 0.25 = 1 /\ Math_floor infinity = infinity /\ Math_floor nan = nan /\
  is_integer 0.5 = false /\ is_integer 3 = true /\ is_integer 0x1p+80 = true /\
  is_integer nan = false /\ Math_max 3 7 = 7 /\ Math_max 0 neg_zero = 0 /\
  Math_max neg_zero 0 = 0 /\ Math_max nan 1 = nan.
Proof. vm_compute. repeat split. Qed.

(* ===================================================================== *)
(** ** The bounds merge *)
(* ===================================================================== *)

Section BoundsMerge.
Context {S : GrafanaSchema}.

Lemma optMinMax_min_num (x y : float) :
  optMinMax tag_min (Num x) (Num y) = Num (if x <? y then x else y).
Proof. unfold optMinMax, lt; simpl. destruct (x <? y); reflexivity. Qed.

Lemma optMinMax_max_num (x y : float) :
  optMinMax tag_max (Num x) (Num y) = Num (if y <? x then x else y).
Proof. unfold optMinMax, gt; simpl. destruct (y <? x); reflexivity. Qed.

Lemma ltb_nan_l (x y : float) : is_nan x = true -> (x <? y) = false.
Proof.
  intros H. apply is_nan_Prim2SF in H.
  rewrite FloatAxioms.ltb_spec, H. reflexivity.
Qed.

Lemma ltb_nan_r (x y : float) : is_nan y = true -> (x <? y) = false.
Proof.
  intros H. apply is_nan_Prim2SF in H.
  rewrite FloatAxioms.ltb_spec, H. unfold SFltb.
  destruct (Prim2SF x); reflexivity.
Qed.

(** C6 (as amended): [merge] sets the builder's [min] to [optMinMax] of the
    two minima and its [max] to [optMinMax] of the two maxima.  When both
    bounds are present the result is one of the two, below which (for
    ['min']) or above which (for ['max']) no present value lies; it is the
    smaller, respectively the larger, of the two whenever neither is [NaN],
    and the incoming bound when either is.  When one bound is present the
    result is that bound, and when neither is the result is absent.  [null]
    and [undefined] both count as absent, the number 0 as present; the three
    merges the spec lists give 2, 9 and 3. *)
Theorem merge_takes_widest_bounds (this props : ScaleProps) (x y : float)
    (t : minmax_tag) :
  (* merge, on every pair of builders *)
  ScaleProps.min (merge this props) =
    optMinMax tag_min (ScaleProps.min this) (ScaleProps.min props) /\
  ScaleProps.max (merge this props) =
    optMinMax tag_max (ScaleProps.max this) (ScaleProps.max props) /\
  (ScaleProps.min this = Num x -> ScaleProps.min props = Num y ->
     ScaleProps.min (merge this props) = Num (if x <? y then x else y)) /\
  (ScaleProps.max this = Num x -> ScaleProps.max props = Num y ->
     ScaleProps.max (merge this props) = Num (if y <? x then x else y)) /\
  (ScaleProps.min this = Num x -> is_nullish (ScaleProps.min props) = true ->
     ScaleProps.min (merge this props) = Num x) /\
  (ScaleProps.max this = Num x -> is_nullish (ScaleProps.max props) = true ->
     ScaleProps.max (merge this props) = Num x) /\
  (is_nullish (ScaleProps.min this) = true -> ScaleProps.min props = Num y ->
     ScaleProps.min (merge this props) = Num y) /\
  (is_nullish (ScaleProps.max this) = true -> ScaleProps.max props = Num y ->
     ScaleProps.max (merge this props) = Num y) /\
  (is_nullish (ScaleProps.min this) = true -> is_nullish (ScaleProps.min props) = true ->
     is_nullish (ScaleProps.min (merge this props)) = true) /\
  (is_nullish (ScaleProps.max this) = true -> is_nullish (ScaleProps.max props) = true ->
     is_nullish (ScaleProps.max (merge this props)) = true) /\
  (* both present *)
  (let lo := if x <? y then x else y in
   optMinMax tag_min (Num x) (Num y) = Num lo /\
   (lo = x \/ lo = y) /\ (x <? lo) = false /\ (y <? lo) = false /\
   (is_nan x = false -> is_nan y = false -> (lo <=? x) = true /\ (lo <=? y) = true)) /\
  (let hi := if y <? x then x else y in
   optMinMax tag_max (Num x) (Num y) = Num hi /\
   (hi = x \/ hi = y) /\ (hi <? x) = false /\ (hi <? y) = false /\
   (is_nan x = false -> is_nan y = false -> (x <=? hi) = true /\ (y <=? hi) = true)) /\
  (is_nan x || is_nan y = true -> optMinMax t (Num x) (Num y) = Num y) /\
  (* only one present *)
  optMinMax t (Num x) Null = Num x /\ optMinMax t (Num x) Undefined = Num x /\
  optMinMax t Null (Num y) = Num y /\ optMinMax t Undefined (Num y) = Num y /\
  (* neither present *)
  is_nullish (optMinMax t Null Null) = true /\
  is_nullish (optMinMax t Null Undefined) = true /\
  is_nullish (optMinMax t Undefined Null) = true /\
  is_nullish (optMinMax t Undefined Undefined) = true /\
  (* zero is a present value *)
  optMinMax t (Num 0) Null = Num 0 /\ optMinMax t Undefined (Num 0) = Num 0 /\
  optMinMax tag_min (Num 0) (Num 5) = Num 0 /\ optMinMax tag_max (Num 0) (Num (-5)) = Num 0 /\
  (* the merges of the spec *)
  ScaleProps.min (merge (y_props (Num 5) Undefined Undefined Undefined None Undefined)
                        (y_props (Num 2) Undefined Undefined Undefined None Undefined)) = Num 2 /\
  ScaleProps.max (merge (y_props Undefined (Num 5) Undefined Undefined None Undefined)
                        (y_props Undefined (Num 9) Undefined Undefined None Undefined)) = Num 9 /\
  ScaleProps.min (merge (y_props Undefined Undefined Undefined Undefined None Undefined)
                        (y_props (Num 3) Undefined Undefined Undefined None Undefined)) = Num 3.
Proof.
  split; [reflexivity|]. split; [reflexivity|].
  split; [intros Ha Hb; cbn [merge ScaleProps.min]; rewrite Ha, Hb; apply optMinMax_min_num|].
  split; [intros Ha Hb; cbn [merge ScaleProps.max]; rewrite Ha, Hb; apply optMinMax_max_num|].
  split; [intros Ha Hb; cbn [merge ScaleProps.min]; rewrite Ha;
          destruct (ScaleProps.min props); try discriminate; destruct t; reflexivity|].
  split; [intros Ha Hb; cbn [merge ScaleProps.max]; rewrite Ha;
          destruct (ScaleProps.max props); try discriminate; destruct t; reflexivity|].
  split; [intros Ha Hb; cbn [merge ScaleProps.min]; rewrite Hb;
          destruct (ScaleProps.min this); try discriminate; reflexivity|].
  split; [intros Ha Hb; cbn [merge ScaleProps.max]; rewrite Hb;
          destruct (ScaleProps.max this); try discriminate; reflexivity|].
  split; [intros Ha Hb; cbn [merge ScaleProps.min];
          destruct (ScaleProps.min this), (ScaleProps.min props);
          try discriminate; reflexivity|].
  split; [intros Ha Hb; cbn [merge ScaleProps.max];
          destruct (ScaleProps.max this), (ScaleProps.max props);
          try discriminate; reflexivity|].
  split; [|split; [|split]].
  - cbv zeta. split; [apply optMinMax_min_num|].
    destruct (x <? y) eqn:E.
    + repeat split; auto using ltb_irrefl, ltb_asym, leb_refl, ltb_leb.
    + repeat split; auto using ltb_irrefl, leb_refl, ltb_false_leb.
  - cbv zeta. split; [apply optMinMax_max_num|].
    destruct (y <? x) eqn:E.
    + repeat split; auto using ltb_irrefl, ltb_asym, leb_refl, ltb_leb.
    + repeat split; auto using ltb_irrefl, leb_refl, ltb_false_leb.
  - intros Hn. destruct t; [rewrite optMinMax_min_num|rewrite optMinMax_max_num];
      apply orb_true_iff in Hn as [Hn|Hn];
      rewrite ?(ltb_nan_l _ _ Hn), ?(ltb_nan_r _ _ Hn); reflexivity.
  - destruct t; repeat split; reflexivity.
Qed.

End BoundsMerge.

(* ===================================================================== *)
(** ** The range function *)
(* ===================================================================== *)

Section RangeFn.
Context {S : GrafanaSchema} {U : uPlotLib} {D : GrafanaData}.
Implicit Types (props : ScaleProps) (u : uPlot) (scale : ScaleState).
Implicit Types (dataMin dataMax : jsnum) (scaleKey : string).

(** Past the early return, on a plot that has the scale, [rangeFn] is the
    guard applied to the range of lines 101-131. *)
Lemma rangeFn_past_noData props u scale dataMin dataMax scaleKey :
  scales u !! scaleKey = Some scale ->
  noData props dataMin dataMax = false ->
  rangeFn props u dataMin dataMax scaleKey =
    Normal (degeneracyGuard (beforeGuard props scale dataMin dataMax)).
Proof. intros Hs Hn. unfold rangeFn. rewrite Hn, Hs. reflexivity. Qed.

Lemma degeneracyGuard_fires (minMax : Range.MinMax) :
  ge (fst minMax) (snd minMax) = true -> degeneracyGuard minMax = (Num 0, Num 100).
Proof. intros H. unfold degeneracyGuard. rewrite H. reflexivity. Qed.

Lemma degeneracyGuard_passes (minMax : Range.MinMax) :
  ge (fst minMax) (snd minMax) = false -> degeneracyGuard minMax = minMax.
Proof. intros H. unfold degeneracyGuard. rewrite H. reflexivity. Qed.

Lemma hardOverride_min props (minMax : Range.MinMax) :
  hardMinOnly props = true -> fst (hardOverride props minMax) = ScaleProps.min props.
Proof.
  intros H. unfold hardOverride. rewrite H.
  destruct (hardMaxOnly props); reflexivity.
Qed.

Lemma hardOverride_max props (minMax : Range.MinMax) :
  hardMaxOnly props = true -> snd (hardOverride props minMax) = ScaleProps.max props.
Proof. intros H. unfold hardOverride. rewrite H. reflexivity. Qed.

Lemma hardOverride_none props (minMax : Range.MinMax) :
  hardMinOnly props = false -> hardMaxOnly props = false ->
  hardOverride props minMax = minMax.
Proof. intros H1 H2. unfold hardOverride. rewrite H1, H2. reflexivity. Qed.

(** C2: when the scale is not fixed by hard-only bounds on both ends and
    both ends of the extent are null, [rangeFn] returns the extent as it
    got it, [[null, null]], from the early return: the result is the same
    for every uPlot library, helper set and plot, the plot's scale being
    looked at by none of them. *)
Theorem no_data_short_circuit props u dataMin dataMax scaleKey :
  hasFixedRange props = false ->
  is_nullish dataMin = true ->
  is_nullish dataMax = true ->
  rangeFn props u dataMin dataMax scaleKey = Normal (dataMin, dataMax) /\
  rangeFn props u Null Null scaleKey = Normal (Null, Null) /\
  forall (U' : uPlotLib) (D' : GrafanaData) (u' : uPlot),
    @rangeFn S U' D' props u' dataMin dataMax scaleKey = Normal (dataMin, dataMax).
Proof.
  intros Hf Hmin Hmax.
  assert (Hn : noData props dataMin dataMax = true)
    by (unfold noData; rewrite Hf, Hmin, Hmax; reflexivity).
  assert (Hn0 : noData props Null Null = true)
    by (unfold noData; rewrite Hf; reflexivity).
  repeat split.
  - unfold rangeFn. rewrite Hn. reflexivity.
  - unfold rangeFn. rewrite Hn0. reflexivity.
  - intros U' D' u'. unfold rangeFn. rewrite Hn. reflexivity.
Qed.

(** C1 (as amended): for an input that gets past the early return, a
    hard-only minimum is the minimum of the range that reaches the guard of
    line 134, whatever the extent and whatever padding and snapping produced,
    and likewise a hard-only maximum; [rangeFn] returns that range when the
    guard lets it through, and [[0, 100]] when its minimum is not below its
    maximum. *)
Theorem hard_only_bound_overrides props u scale dataMin dataMax scaleKey :
  scales u !! scaleKey = Some scale ->
  noData props dataMin dataMax = false ->
  (hardMinOnly props = true ->
     fst (beforeGuard props scale dataMin dataMax) = ScaleProps.min props) /\
  (hardMaxOnly props = true ->
     snd (beforeGuard props scale dataMin dataMax) = ScaleProps.max props) /\
  (ge (fst (beforeGuard props scale dataMin dataMax))
      (snd (beforeGuard props scale dataMin dataMax)) = false ->
     rangeFn props u dataMin dataMax scaleKey =
       Normal (beforeGuard props scale dataMin dataMax) /\
     (hardMinOnly props = true ->
        exists mx, rangeFn props u dataMin dataMax scaleKey =
                     Normal (ScaleProps.min props, mx)) /\
     (hardMaxOnly props = true ->
        exists mn, rangeFn props u dataMin dataMax scaleKey =
                     Normal (mn, ScaleProps.max props))) /\
  (ge (fst (beforeGuard props scale dataMin dataMax))
      (snd (beforeGuard props scale dataMin dataMax)) = true ->
     rangeFn props u dataMin dataMax scaleKey = Normal (Num 0, Num 100)).
Proof.
  intros Hs Hn.
  rewrite (rangeFn_past_noData _ _ _ _ _ _ Hs Hn).
  assert (Hmin : hardMinOnly props = true ->
            fst (beforeGuard props scale dataMin dataMax) = ScaleProps.min props)
    by (intros H; apply hardOverride_min; exact H).
  assert (Hmax : hardMaxOnly props = true ->
            snd (beforeGuard props scale dataMin dataMax) = ScaleProps.max props)
    by (intros H; apply hardOverride_max; exact H).
  split; [exact Hmin|]. split; [exact Hmax|]. split.
  - intros Hg. rewrite (degeneracyGuard_passes _ Hg).
    destruct (beforeGuard props scale dataMin dataMax) as [mn mx] eqn:E.
    simpl in *. repeat split.
    + intros H. exists mx. rewrite <- (Hmin H). reflexivity.
    + intros H. exists mn. rewrite <- (Hmax H). reflexivity.
  - intros Hg. rewrite (degeneracyGuard_fires _ Hg). reflexivity.
Qed.

(** C3 (as amended): past the early return and on a plot that has the
    scale, [rangeFn] returns normally; it returns exactly [[0, 100]] when the
    range reaching the guard has [min >= max], and that range unchanged
    otherwise.  Either way the test [min >= max] fails on what is returned,
    which makes [min < max] whenever neither end is [NaN]. *)
Theorem degeneracy_guard_fallback props u scale dataMin dataMax scaleKey :
  scales u !! scaleKey = Some scale ->
  noData props dataMin dataMax = false ->
  (ge (fst (beforeGuard props scale dataMin dataMax))
      (snd (beforeGuard props scale dataMin dataMax)) = true ->
     rangeFn props u dataMin dataMax scaleKey = Normal (Num 0, Num 100)) /\
  (ge (fst (beforeGuard props scale dataMin dataMax))
      (snd (beforeGuard props scale dataMin dataMax)) = false ->
     rangeFn props u dataMin dataMax scaleKey =
       Normal (beforeGuard props scale dataMin dataMax)) /\
  exists mn mx,
    rangeFn props u dataMin dataMax scaleKey = Normal (mn, mx) /\
    ge mn mx = false /\
    (is_nan (ToNumber mn) = false -> is_nan (ToNumber mx) = false -> lt mn mx = true).
Proof.
  intros Hs Hn.
  rewrite (rangeFn_past_noData _ _ _ _ _ _ Hs Hn).
  set (r := beforeGuard props scale dataMin dataMax).
  split; [|split].
  - intros Hg. rewrite (degeneracyGuard_fires _ Hg). reflexivity.
  - intros Hg. rewrite (degeneracyGuard_passes _ Hg). reflexivity.
  - destruct (ge (fst r) (snd r)) eqn:Hg.
    + exists (Num 0), (Num 100). rewrite (degeneracyGuard_fires _ Hg).
      repeat split; reflexivity.
    + exists (fst r), (snd r). rewrite (degeneracyGuard_passes _ Hg).
      split; [destruct r; reflexivity|]. split; [exact Hg|].
      intros Ha Hb. unfold lt. unfold ge in Hg.
      apply leb_false_ltb; assumption.
Qed.

(** What [rangeFn] reads of the builder's properties: the four bounds and
    the two flags [getConfig] destructured for it. *)
Lemma rangeFn_reads props1 props2 u dataMin dataMax scaleKey :
  ScaleProps.min props1 = ScaleProps.min props2 ->
  ScaleProps.max props1 = ScaleProps.max props2 ->
  ScaleProps.softMin props1 = ScaleProps.softMin props2 ->
  ScaleProps.softMax props1 = ScaleProps.softMax props2 ->
  ScaleProps.centeredZero props1 = ScaleProps.centeredZero props2 ->
  ScaleProps.decimals props1 = ScaleProps.decimals props2 ->
  rangeFn props1 u dataMin dataMax scaleKey = rangeFn props2 u dataMin dataMax scaleKey.
Proof.
  intros Hmin Hmax Hsmin Hsmax Hc Hd.
  unfold rangeFn, noData, beforeGuard, hardOverride, decimalSnap, distrRange,
    paddingArgs, centeredExtent, rangeConfig, softMinMode, softMaxMode,
    hasFixedRange, hardMinOnly, hardMaxOnly.
  rewrite Hmin, Hmax, Hsmin, Hsmax, Hc, Hd. reflexivity.
Qed.

(** The pure result is the same for builders that agree on those bounds and
    flags and for plots that hold the same scale under the key. *)
Lemma rangeFn_same_inputs props1 props2 (u1 u2 : uPlot) dataMin dataMax scaleKey :
  ScaleProps.min props1 = ScaleProps.min props2 ->
  ScaleProps.max props1 = ScaleProps.max props2 ->
  ScaleProps.softMin props1 = ScaleProps.softMin props2 ->
  ScaleProps.softMax props1 = ScaleProps.softMax props2 ->
  ScaleProps.centeredZero props1 = ScaleProps.centeredZero props2 ->
  ScaleProps.decimals props1 = ScaleProps.decimals props2 ->
  scales u1 !! scaleKey = scales u2 !! scaleKey ->
  rangeFn props1 u1 dataMin dataMax scaleKey = rangeFn props2 u2 dataMin dataMax scaleKey.
Proof.
  intros Hmin Hmax Hsmin Hsmax Hc Hd Hu.
  rewrite (rangeFn_reads props1 props2 u1 _ _ _ Hmin Hmax Hsmin Hsmax Hc Hd).
  unfold rangeFn. rewrite Hu. reflexivity.
Qed.

(** C10: [rangeFn] is the same function as [rangeFn] without its
    [rangeAsinh] arm: a scale with discriminator 4 takes the [rangeNum] arm,
    with the same arguments as discriminators 1 and 2, and replacing the
    library's [rangeAsinh] by any other function changes no result. *)
Theorem symlog_takes_rangeNum_path props u dataMin dataMax scaleKey :
  rangeFn props u dataMin dataMax scaleKey =
    rangeFn_noAsinh props u dataMin dataMax scaleKey /\
  (forall scale, u_distr scale = Num 4 ->
     distrRange props scale dataMin dataMax =
       rangeNum (fst (paddingArgs props dataMin dataMax))
                (snd (paddingArgs props dataMin dataMax)) (rangeConfig props) /\
     distrRange props scale dataMin dataMax =
       distrRange props {| u_distr := Num 1; u_log := u_log scale |} dataMin dataMax /\
     distrRange props scale dataMin dataMax =
       distrRange props {| u_distr := Num 2; u_log := u_log scale |} dataMin dataMax) /\
  (forall asinh' : jsnum -> jsnum -> jsnum -> bool -> Range.MinMax,
     @rangeFn S {| rangeNum := rangeNum; rangeLog := rangeLog; rangeAsinh := asinh' |} D
        props u dataMin dataMax scaleKey =
     rangeFn props u dataMin dataMax scaleKey).
Proof.
  assert (Heq : forall (V : uPlotLib) scale,
            @distrRange S V props scale dataMin dataMax =
            @distrRange_noAsinh S V props scale dataMin dataMax).
  { intros V scale. unfold distrRange, distrRange_noAsinh.
    destruct (strict_eq_num (u_distr scale) 1); [reflexivity|].
    destruct (strict_eq_num (u_distr scale) 2); [reflexivity|].
    destruct (strict_eq_num (u_distr scale) 4); [reflexivity|].
    simpl. destruct (strict_eq_num (u_distr scale) 3); reflexivity. }
  split; [|split].
  - unfold rangeFn, rangeFn_noAsinh, beforeGuard.
    destruct (noData props dataMin dataMax); [reflexivity|].
    destruct (scales u !! scaleKey) as [scale|]; [|reflexivity].
    rewrite Heq. reflexivity.
  - intros scale H4. unfold distrRange. rewrite H4. simpl.
    destruct (paddingArgs props dataMin dataMax); repeat split; reflexivity.
  - intros asinh'. unfold rangeFn, beforeGuard.
    destruct (noData props dataMin dataMax); [reflexivity|].
    destruct (scales u !! scaleKey) as [scale|]; [|reflexivity].
    rewrite !Heq. reflexivity.
Qed.

End RangeFn.

(* ===================================================================== *)
(** ** Two calls of the range function *)
(* ===================================================================== *)

Section ArrayFacts.
Context {L : Type}.
Implicit Types (w : World L) (l : positive) (mm r : Range.MinMax).

Lemma newArray_fresh mm w : returned_fresh mm w (newArray mm w).
Proof.
  unfold returned_fresh, newArray; cbn.
  assert (Hf : arrays w !! fresh (dom (arrays w)) = None)
    by (apply not_elem_of_dom, is_fresh).
  split; [exact Hf|]. split; [apply lookup_insert_eq|].
  intros l [x Hx]. apply lookup_insert_ne. intros <-. congruence.
Qed.

Lemma wrote_refl l r w : arrays w !! l = Some r -> wrote l r w w.
Proof. intros H. split; [exact H|reflexivity]. Qed.

Lemma wrote_trans l r r' w w' w'' :
  wrote l r w w' -> wrote l r' w' w'' -> wrote l r' w w''.
Proof.
  intros [_ H1] [H2 H3]. split; [exact H2|].
  intros l' Hl. rewrite (H3 l' Hl). apply H1. exact Hl.
Qed.

Lemma setAt0_wrote l v w mm :
  arrays w !! l = Some mm -> wrote l (v, snd mm) w (setAt0 l v w).
Proof.
  intros H. split; cbn.
  - rewrite lookup_alter_eq, H. reflexivity.
  - intros l' Hl. apply lookup_alter_ne. congruence.
Qed.

Lemma setAt1_wrote l v w mm :
  arrays w !! l = Some mm -> wrote l (fst mm, v) w (setAt1 l v w).
Proof.
  intros H. split; cbn.
  - rewrite lookup_alter_eq, H. reflexivity.
  - intros l' Hl. apply lookup_alter_ne. congruence.
Qed.

Lemma getAt0_live l w mm : arrays w !! l = Some mm -> getAt0 l w = fst mm.
Proof. intros H. unfold getAt0. rewrite H. reflexivity. Qed.

Lemma getAt1_live l w mm : arrays w !! l = Some mm -> getAt1 l w = snd mm.
Proof. intros H. unfold getAt1. rewrite H. reflexivity. Qed.

End ArrayFacts.

Section RangeFnObj.
Context {S : GrafanaSchema} {U : uPlotLib} {O : uPlotObj} {D : GrafanaData}.
Implicit Types (props : ScaleProps) (u : uPlot) (scale : ScaleState).
Implicit Types (dataMin dataMax : jsnum) (scaleKey : string).
Implicit Types (w : World LibState) (l : positive) (mm : Range.MinMax).

Lemma decimalSnapO_wrote props l w mm :
  arrays w !! l = Some mm ->
  wrote l (decimalSnap props mm) w (decimalSnapO props l w).
Proof.
  intros H. unfold decimalSnapO, decimalSnap.
  destruct (strict_eq_num (ScaleProps.decimals props) 0); [|apply wrote_refl; exact H].
  rewrite (getAt0_live _ _ _ H).
  pose proof (setAt0_wrote l (Num (incrRoundDn (fst mm) 1)) w mm H) as H0.
  destruct H0 as [Hl0 Ho0].
  rewrite (getAt1_live _ _ _ Hl0). cbn [snd].
  eapply wrote_trans; [split; [exact Hl0|exact Ho0]|].
  apply (setAt1_wrote l _ _ _ Hl0).
Qed.

Lemma hardOverrideO_wrote props l w mm :
  arrays w !! l = Some mm ->
  wrote l (hardOverride props mm) w (hardOverrideO props l w).
Proof.
  intros H. unfold hardOverrideO, hardOverride.
  destruct (hardMinOnly props).
  - pose proof (setAt0_wrote l (ScaleProps.min props) w mm H) as H0.
    destruct (hardMaxOnly props); [|exact H0].
    eapply wrote_trans; [exact H0|]. apply (setAt1_wrote l _ _ _ (proj1 H0)).
  - destruct (hardMaxOnly props); [|apply wrote_refl; exact H].
    apply (setAt1_wrote l _ _ _ H).
Qed.

Lemma degeneracyGuardO_wrote l w mm :
  arrays w !! l = Some mm ->
  wrote l (degeneracyGuard mm) w (degeneracyGuardO l w).
Proof.
  intros H. unfold degeneracyGuardO, degeneracyGuard.
  rewrite (getAt0_live _ _ _ H), (getAt1_live _ _ _ H).
  destruct (ge (fst mm) (snd mm)); [|apply wrote_refl; destruct mm; exact H].
  pose proof (setAt0_wrote l (Num 0) w mm H) as H0.
  eapply wrote_trans; [exact H0|]. apply (setAt1_wrote l _ _ _ (proj1 H0)).
Qed.

(** Lines 101-117 leave [minMax] bound to a new array that holds the range
    by distribution. *)
Lemma distrRangeO_fresh props scale dataMin dataMax w w0 l0 :
  returns_fresh_arrays U O ->
  returned_fresh (dataMin, dataMax) w (l0, w0) ->
  returned_fresh (distrRange props scale dataMin dataMax) w
    (distrRangeO props scale dataMin dataMax l0 w0).
Proof.
  intros (Hnum & Hlog & Hasinh) H0.
  assert (Hlift : forall r out, returned_fresh r w0 out -> returned_fresh r w out).
  { intros r [l w1] (Hf & Hl & Ho). destruct H0 as (Hf0 & Hl0 & Ho0).
    unfold returned_fresh; cbn [fst snd] in *.
    split; [|split; [exact Hl|]].
    - destruct (arrays w !! l) eqn:E; [|reflexivity].
      rewrite <- (Ho0 l (mk_is_Some _ _ E)) in E. congruence.
    - intros l' Hl'. rewrite <- (Ho0 l' Hl'). apply Ho. rewrite (Ho0 l' Hl'). exact Hl'. }
  unfold distrRangeO, distrRange.
  destruct (strict_eq_num (u_distr scale) 1 || strict_eq_num (u_distr scale) 2
            || strict_eq_num (u_distr scale) 4).
  - destruct (paddingArgs props dataMin dataMax) as [mn mx]. apply Hlift, Hnum.
  - destruct (strict_eq_num (u_distr scale) 3); [apply Hlift, Hlog|].
    destruct (strict_eq_num (u_distr scale) 4); [apply Hlift, Hasinh|exact H0].
Qed.

(** With a library that returns new arrays, a call of [rangeFn] returns a
    new array holding the range [rangeFn] computes, writes to no array that
    was there before, and raises when [rangeFn] does. *)
Lemma rangeFnO_refines props u dataMin dataMax scaleKey w :
  returns_fresh_arrays U O ->
  match rangeFnO props u dataMin dataMax scaleKey w with
  | TypeError => rangeFn props u dataMin dataMax scaleKey = TypeError
  | Normal out =>
      exists r, rangeFn props u dataMin dataMax scaleKey = Normal r /\
                returned_fresh r w out
  end.
Proof.
  intros HO. unfold rangeFnO, rangeFn.
  pose proof (newArray_fresh (dataMin, dataMax) w) as H0.
  destruct (newArray (dataMin, dataMax) w) as [l0 w0].
  destruct (noData props dataMin dataMax); [eauto|].
  destruct (scales u !! scaleKey) as [scale|]; [|reflexivity].
  pose proof (distrRangeO_fresh props scale dataMin dataMax w w0 l0 HO H0) as H1.
  destruct (distrRangeO props scale dataMin dataMax l0 w0) as [l w1].
  destruct H1 as (Hf & Hl & Ho). cbn [fst snd] in *.
  eexists. split; [reflexivity|].
  pose proof (decimalSnapO_wrote props l w1 _ Hl) as H2.
  pose proof (hardOverrideO_wrote props l _ _ (proj1 H2)) as H3.
  pose proof (degeneracyGuardO_wrote l _ _ (proj1 H3)) as H4.
  pose proof (wrote_trans _ _ _ _ _ _ (wrote_trans _ _ _ _ _ _ H2 H3) H4) as [Hr Hoff].
  split; [exact Hf|]. split; [exact Hr|]. cbn [fst snd].
  intros l' Hl'. rewrite Hoff; [apply Ho; exact Hl'|].
  intros ->. destruct Hl' as [x Hx]. congruence.
Qed.

End RangeFnObj.

(** The allocating library keeps the contract. *)
Lemma allocating_uPlot_fresh (U : uPlotLib) :
  returns_fresh_arrays U (allocating_uPlot U).
Proof. split; [|split]; intros; apply newArray_fresh. Qed.

Section TwoCalls.
Context {S : GrafanaSchema} {U : uPlotLib} {O : uPlotObj} {D : GrafanaData}.
Implicit Types (props : ScaleProps) (u : uPlot).
Implicit Types (dataMin dataMax : jsnum) (scaleKey : string).
Implicit Types (w : World LibState) (l : positive).

(** C8: for any library that computes its ranges from its arguments and
    returns each in a new array, as uPlot's does, a call of [rangeFn] that
    returns is followed by a second call, for the same bounds and flags, the
    same extent and the same state of the scale under the key, that returns
    an array with the same two elements, the range [rangeFn] computes; the
    second call hands back another array and leaves the first call's array
    as it was. *)
Theorem rangeFn_calls_agree props1 props2 (u1 u2 : uPlot) dataMin dataMax scaleKey
    w l1 w1 :
  returns_fresh_arrays U O ->
  ScaleProps.min props1 = ScaleProps.min props2 ->
  ScaleProps.max props1 = ScaleProps.max props2 ->
  ScaleProps.softMin props1 = ScaleProps.softMin props2 ->
  ScaleProps.softMax props1 = ScaleProps.softMax props2 ->
  ScaleProps.centeredZero props1 = ScaleProps.centeredZero props2 ->
  ScaleProps.decimals props1 = ScaleProps.decimals props2 ->
  scales u1 !! scaleKey = scales u2 !! scaleKey ->
  rangeFnO props1 u1 dataMin dataMax scaleKey w = Normal (l1, w1) ->
  exists l2 w2 r,
    rangeFnO props2 u2 dataMin dataMax scaleKey w1 = Normal (l2, w2) /\
    arrays w1 !! l1 = Some r /\
    arrays w2 !! l2 = Some r /\
    arrays w2 !! l1 = Some r /\
    l1 <> l2 /\
    rangeFn props1 u1 dataMin dataMax scaleKey = Normal r.
Proof.
  intros HO Hmin Hmax Hsmin Hsmax Hc Hd Hu Hcall1.
  pose proof (rangeFnO_refines props1 u1 dataMin dataMax scaleKey w HO) as H1.
  rewrite Hcall1 in H1. destruct H1 as (r & Hr & Hf1 & Hl1 & Ho1). cbn [fst snd] in *.
  pose proof (rangeFnO_refines props2 u2 dataMin dataMax scaleKey w1 HO) as H2.
  rewrite <- (rangeFn_same_inputs props1 props2 u1 u2 _ _ _ Hmin Hmax Hsmin Hsmax Hc Hd Hu),
    Hr in H2.
  destruct (rangeFnO props2 u2 dataMin dataMax scaleKey w1) as [[l2 w2]|]; [|discriminate].
  destruct H2 as (r2 & [= <-] & Hf2 & Hl2 & Ho2). cbn [fst snd] in *.
  exists l2, w2, r. split; [reflexivity|]. split; [exact Hl1|]. split; [exact Hl2|].
  split; [rewrite (Ho2 l1 (mk_is_Some _ _ Hl1)); exact Hl1|].
  split; [intros ->; congruence|exact Hr].
Qed.

End TwoCalls.

(* ===================================================================== *)
(** ** The descriptor *)
(* ===================================================================== *)

Section GetConfig.
Context {S : GrafanaSchema} {U : uPlotLib} {D : GrafanaData}.
Implicit Types (props : ScaleProps).

Lemma getConfig_lookup props :
  exists d, getConfig props = {[ ScaleProps.scaleKey props := d ]} /\
            getConfig props !! ScaleProps.scaleKey props = Some d.
Proof.
  unfold getConfig.
  destruct (isBooleanUnit (ScaleProps.scaleKey props));
    eexists; (split; [reflexivity | apply lookup_singleton_eq]).
Qed.

(** C7: for a key that [isBooleanUnit] recognises, the descriptor under
    that key has the literal range [[0, 1]] and [auto] false, whatever the
    bounds, the flags and the [range] the caller supplied; being a literal,
    it does not depend on a data extent. *)
Theorem boolean_scale_fixed_range props :
  isBooleanUnit (ScaleProps.scaleKey props) = true ->
  exists d,
    getConfig props = {[ ScaleProps.scaleKey props := d ]} /\
    getConfig props !! ScaleProps.scaleKey props = Some d /\
    Scale.range d = RangeMinMax (Num 0, Num 1) /\
    Scale.auto d = false.
Proof.
  intros Hb. unfold getConfig. rewrite Hb.
  eexists. split; [reflexivity|]. split; [apply lookup_singleton_eq|].
  split; reflexivity.
Qed.

(** C9 (as amended): the descriptor of a scale that is not a time scale
    carries the discriminator 1 for Linear (and for no distribution), 2 for
    Ordinal, 3 for Log and 4 for SymLog, [log] set to the configured base or
    2 for Log and SymLog and to [undefined] otherwise, and [asinh] set to the
    configured linear threshold or 1 for SymLog and to [undefined] otherwise.
    The descriptor of a time scale defines none of the three.  For every
    scale, time or not, whose key is not boolean the range is the one the
    caller supplied, and [rangeFn] when none was supplied. *)
Theorem getConfig_distribution_fields props :
  exists d,
    getConfig props !! ScaleProps.scaleKey props = Some d /\
    Scale.time d = ScaleProps.isTime props /\
    (truthy_bool (ScaleProps.isTime props) = false ->
       Scale.distr d = Some (discriminator (ScaleProps.distribution props)) /\
       Scale.log d = Some (logBase props) /\
       Scale.asinh d = Some (asinhThreshold props)) /\
    (truthy_bool (ScaleProps.isTime props) = true ->
       Scale.distr d = None /\ Scale.log d = None /\ Scale.asinh d = None) /\
    (isBooleanUnit (ScaleProps.scaleKey props) = false ->
       Scale.range d =
         match ScaleProps.range props with
         | Some r => r
         | None => RangeFunction (rangeFn props)
         end).
Proof.
  unfold getConfig.
  destruct (isBooleanUnit (ScaleProps.scaleKey props)) eqn:Hb;
    eexists; (split; [apply lookup_singleton_eq|]); simpl;
    (split; [reflexivity|]); unfold distribution, discriminator, logBase, asinhThreshold;
    (split; [intros Ht; rewrite Ht; simpl;
              destruct (ScaleProps.distribution props) as [[]|]; repeat split; reflexivity|]);
    (split; [intros Ht; rewrite Ht; simpl; repeat split; reflexivity|]);
    intros Hf; try discriminate.
  destruct (ScaleProps.range props); reflexivity.
Qed.

End GetConfig.

(* ===================================================================== *)
(** ** Centred zero *)
(* ===================================================================== *)

Section CenteredZero.
Context {S : GrafanaSchema} {U : uPlotLib} {D : GrafanaData}.
Implicit Types (props : ScaleProps) (scale : ScaleState) (dataMin dataMax : jsnum).

Lemma distrRange_rangeNum props scale dataMin dataMax :
  u_distr scale = Num 1 \/ u_distr scale = Num 2 \/ u_distr scale = Num 4 ->
  distrRange props scale dataMin dataMax =
    rangeNum (fst (paddingArgs props dataMin dataMax))
             (snd (paddingArgs props dataMin dataMax)) (rangeConfig props).
Proof.
  intros Hd. unfold distrRange.
  replace (strict_eq_num (u_distr scale) 1 || strict_eq_num (u_distr scale) 2
           || strict_eq_num (u_distr scale) 4) with true
    by (destruct Hd as [-> | [-> | ->]]; reflexivity).
  destruct (paddingArgs props dataMin dataMax); reflexivity.
Qed.

(** C4 (as amended): with [centeredZero] set, on discriminators 1, 2 and 4
    the extent becomes [[-m, m]] with [m] the larger absolute value before
    [rangeNum] pads ([{-3, 7}] becomes [{-7, 7}]).  What [rangeNum] gets is
    that pair with each hard-only side replaced by its hard bound; so with
    no hard-only side the padded range is the one of [[-m, m]], and the
    range up to the hard override is symmetric whenever [rangeNum] answers
    that call with a symmetric pair (and, under [decimals = 0], rounding
    [-r] down is minus rounding [r] up). *)
Theorem centered_zero_symmetric props scale dataMin dataMax :
  truthy_bool (ScaleProps.centeredZero props) = true ->
  u_distr scale = Num 1 \/ u_distr scale = Num 2 \/ u_distr scale = Num 4 ->
  centeredExtent props dataMin dataMax =
    (Num (- centeredRadius dataMin dataMax), Num (centeredRadius dataMin dataMax)) /\
  centeredRadius (Num (-3)) (Num 7) = 7 /\
  paddingArgs props dataMin dataMax =
    (if hardMinOnly props then ScaleProps.min props
     else Num (- centeredRadius dataMin dataMax),
     if hardMaxOnly props then ScaleProps.max props
     else Num (centeredRadius dataMin dataMax)) /\
  (hardMinOnly props = false -> hardMaxOnly props = false ->
     distrRange props scale dataMin dataMax =
       rangeNum (Num (- centeredRadius dataMin dataMax))
                (Num (centeredRadius dataMin dataMax)) (rangeConfig props) /\
     forall r : float,
       rangeNum (Num (- centeredRadius dataMin dataMax))
                (Num (centeredRadius dataMin dataMax)) (rangeConfig props)
         = (Num (- r), Num r) ->
       (strict_eq_num (ScaleProps.decimals props) 0 = true ->
          incrRoundDn (Num (- r)) 1 = - incrRoundUp (Num r) 1) ->
       exists r', decimalSnap props (distrRange props scale dataMin dataMax)
                  = (Num (- r'), Num r')).
Proof.
  intros Hc Hd.
  assert (He : centeredExtent props dataMin dataMax =
    (Num (- centeredRadius dataMin dataMax), Num (centeredRadius dataMin dataMax)))
    by (unfold centeredExtent; rewrite Hc; reflexivity).
  assert (Hp : paddingArgs props dataMin dataMax =
    (if hardMinOnly props then ScaleProps.min props
     else Num (- centeredRadius dataMin dataMax),
     if hardMaxOnly props then ScaleProps.max props
     else Num (centeredRadius dataMin dataMax)))
    by (unfold paddingArgs; rewrite He; reflexivity).
  split; [exact He|]. split; [reflexivity|]. split; [exact Hp|].
  intros Hmin Hmax.
  assert (Hr : distrRange props scale dataMin dataMax =
       rangeNum (Num (- centeredRadius dataMin dataMax))
                (Num (centeredRadius dataMin dataMax)) (rangeConfig props))
    by (rewrite (distrRange_rangeNum _ _ _ _ Hd), Hp, Hmin, Hmax; reflexivity).
  split; [exact Hr|].
  intros r Hsym Hsnap. rewrite Hr, Hsym. unfold decimalSnap.
  destruct (strict_eq_num (ScaleProps.decimals props) 0) eqn:Hdec.
  - exists (incrRoundUp (Num r) 1). simpl. rewrite (Hsnap eq_refl). reflexivity.
  - exists r. reflexivity.
Qed.

End CenteredZero.

(* ===================================================================== *)
(** ** The decimal snap *)
(* ===================================================================== *)

Section DecimalSnap.
Context {S : GrafanaSchema} {U : uPlotLib}.
Implicit Types (props : ScaleProps) (u : uPlot) (scale : ScaleState).
Implicit Types (dataMin dataMax : jsnum) (scaleKey : string).

Lemma decimalSnap_spec props (minMax : Range.MinMax) :
  strict_eq_num (ScaleProps.decimals props) 0 = true ->
  decimalSnap (D := spec_GrafanaData) props minMax =
    (Num (Math_floor (ToNumber (fst minMax))), Num (Math_ceil (ToNumber (snd minMax)))).
Proof. intros H. unfold decimalSnap. rewrite H. reflexivity. Qed.

(** With the modelled helpers the snap keeps a symmetric range symmetric. *)
Lemma spec_snap_symmetric (r : float) :
  spec_incrRoundDn (Num (- r)) 1 = - spec_incrRoundUp (Num r) 1.
Proof. unfold spec_incrRoundDn, spec_incrRoundUp. apply Math_floor_opp. Qed.

(** C5 (as amended): with [decimals] exactly 0, past the early return, the
    snap replaces the minimum by its floor and the maximum by its ceiling:
    when the value before the snap is finite, the new minimum is an integer
    not above it and the new maximum an integer not below it.  The range
    that reaches the guard keeps the snapped value on every side that is not
    hard-only (a hard-only side carries its hard bound instead), and
    [rangeFn] returns that range unless the guard replaces it by [[0, 100]]. *)
Theorem decimal_snap_floors_and_ceils props u scale dataMin dataMax scaleKey :
  strict_eq_num (ScaleProps.decimals props) 0 = true ->
  scales u !! scaleKey = Some scale ->
  noData props dataMin dataMax = false ->
  let pre := distrRange props scale dataMin dataMax in
  let lo := Math_floor (ToNumber (fst pre)) in
  let hi := Math_ceil (ToNumber (snd pre)) in
  decimalSnap (D := spec_GrafanaData) props pre = (Num lo, Num hi) /\
  (is_finite (ToNumber (fst pre)) = true ->
     is_integer lo = true /\ (lo <=? ToNumber (fst pre)) = true) /\
  (is_finite (ToNumber (snd pre)) = true ->
     is_integer hi = true /\ (ToNumber (snd pre) <=? hi) = true) /\
  beforeGuard (D := spec_GrafanaData) props scale dataMin dataMax =
    (if hardMinOnly props then ScaleProps.min props else Num lo,
     if hardMaxOnly props then ScaleProps.max props else Num hi) /\
  (ge (if hardMinOnly props then ScaleProps.min props else Num lo)
      (if hardMaxOnly props then ScaleProps.max props else Num hi) = false ->
     rangeFn (D := spec_GrafanaData) props u dataMin dataMax scaleKey =
       Normal (if hardMinOnly props then ScaleProps.min props else Num lo,
               if hardMaxOnly props then ScaleProps.max props else Num hi)).
Proof.
  intros Hdec Hs Hn pre lo hi.
  assert (Hsnap : decimalSnap (D := spec_GrafanaData) props pre = (Num lo, Num hi))
    by (apply decimalSnap_spec; exact Hdec).
  assert (Hbg : beforeGuard (D := spec_GrafanaData) props scale dataMin dataMax =
    (if hardMinOnly props then ScaleProps.min props else Num lo,
     if hardMaxOnly props then ScaleProps.max props else Num hi)).
  { unfold beforeGuard. fold pre. rewrite Hsnap. unfold hardOverride.
    destruct (hardMinOnly props), (hardMaxOnly props); reflexivity. }
  split; [exact Hsnap|]. split; [|split; [|split; [exact Hbg|]]].
  - intros Hf. split; [apply Math_floor_integer | apply Math_floor_le]; exact Hf.
  - intros Hf. split; [apply Math_ceil_integer | apply Math_ceil_ge]; exact Hf.
  - intros Hg. rewrite (rangeFn_past_noData _ _ _ _ _ _ Hs Hn), Hbg.
    apply f_equal. apply degeneracyGuard_passes. exact Hg.
Qed.

End DecimalSnap.

(* ===================================================================== *)
(** ** Runs on concrete inputs *)
(* ===================================================================== *)

(** C1, the claim as stated fails: with [min = max = 5] and no soft bounds
    both ends are hard-only, lines 125-131 make the range [[5, 5]], and the
    guard of line 134 ([5 >= 5]) replaces it by [[0, 100]]: the minimum
    returned is 0, not the hard minimum 5.  Nor is it 5 when only the minimum
    is hard and the extent is [[null, null]]: line 97 returns the extent. *)
Lemma hard_min_not_returned :
  hardMinOnly (y_props (Num 5) (Num 5) Undefined Undefined None Undefined) = true /\
  ScaleProps.min (y_props (Num 5) (Num 5) Undefined Undefined None Undefined) = Num 5 /\
  run_rangeFn (y_props (Num 5) (Num 5) Undefined Undefined None Undefined)
    (y_plot (Num 1)) (Num 1) (Num 9) "y" = Normal (Num 0, Num 100) /\
  (forall (U : uPlotLib) (D : GrafanaData),
     @rangeFn numeric_GrafanaSchema U D
       (y_props (Num 5) (Num 5) Undefined Undefined None Undefined)
       (y_plot (Num 1)) (Num 1) (Num 9) "y" = Normal (Num 0, Num 100)) /\
  hardMinOnly (y_props (Num 5) Undefined Undefined Undefined None Undefined) = true /\
  (forall (U : uPlotLib) (D : GrafanaData),
     @rangeFn numeric_GrafanaSchema U D
       (y_props (Num 5) Undefined Undefined Undefined None Undefined)
       (y_plot (Num 1)) Null Null "y" = Normal (Null, Null)).
Proof. repeat split. Qed.

(** A hard-only minimum 0 on the extent [{1, 5}]: the minimum returned is 0. *)
Lemma hard_only_bound_overrides_witness :
  scales (y_plot (Num 1)) !! "y" = Some linear_scale /\
  noData (y_props (Num 0) Undefined Undefined Undefined None Undefined)
    (Num 1) (Num 5) = false /\
  hardMinOnly (y_props (Num 0) Undefined Undefined Undefined None Undefined) = true /\
  exists mx,
    run_rangeFn (y_props (Num 0) Undefined Undefined Undefined None Undefined)
      (y_plot (Num 1)) (Num 1) (Num 5) "y" = Normal (Num 0, mx).
Proof.
  assert (Hs : scales (y_plot (Num 1)) !! "y" = Some linear_scale) by reflexivity.
  assert (Hn : noData (y_props (Num 0) Undefined Undefined Undefined None Undefined)
                 (Num 1) (Num 5) = false) by reflexivity.
  split; [exact Hs|]. split; [exact Hn|]. split; [reflexivity|].
  destruct (@hard_only_bound_overrides numeric_GrafanaSchema sample_uPlot spec_GrafanaData
              _ _ _ _ _ _ Hs Hn) as (_ & _ & Hpass & _).
  destruct (Hpass eq_refl) as (_ & Hmin & _).
  exact (Hmin eq_refl).
Defined.

(** Only the minimum is hard and the extent is empty: [[null, null]]. *)
Lemma no_data_short_circuit_witness :
  hasFixedRange (y_props (Num 5) Undefined Undefined Undefined None Undefined) = false /\
  run_rangeFn (y_props (Num 5) Undefined Undefined Undefined None Undefined)
    (y_plot (Num 1)) Null Null "y" = Normal (Null, Null).
Proof.
  split; [reflexivity|].
  exact (proj1 (@no_data_short_circuit numeric_GrafanaSchema sample_uPlot spec_GrafanaData
                  (y_props (Num 5) Undefined Undefined Undefined None Undefined)
                  (y_plot (Num 1)) Null Null "y" eq_refl eq_refl eq_refl)).
Defined.

(** C3, the claim as stated fails: with the hard-only bounds [min = NaN]
    and [max = 1] the range at line 134 is [[NaN, 1]]; [NaN >= 1] is false, so
    the range is returned, and its minimum is not below its maximum.  And a
    call whose key names no scale of the plot raises at line 101, where
    [scale.distr] is read off [undefined]. *)
Lemma returned_min_not_below_max :
  run_rangeFn (y_props (Num nan) (Num 1) Undefined Undefined None Undefined)
    (y_plot (Num 1)) (Num 1) (Num 5) "y" = Normal (Num nan, Num 1) /\
  (forall (U : uPlotLib) (D : GrafanaData),
     @rangeFn numeric_GrafanaSchema U D
       (y_props (Num nan) (Num 1) Undefined Undefined None Undefined)
       (y_plot (Num 1)) (Num 1) (Num 5) "y" = Normal (Num nan, Num 1)) /\
  lt (Num nan) (Num 1) = false /\
  (forall (U : uPlotLib) (D : GrafanaData),
     @rangeFn numeric_GrafanaSchema U D
       (y_props Undefined Undefined Undefined Undefined None Undefined)
       (y_plot (Num 1)) (Num 1) (Num 5) "z" = TypeError).
Proof. repeat split. Qed.

(** The hard-only bounds 9 and 2 are inverted: the guard answers [[0, 100]]. *)
Lemma degeneracy_guard_fallback_witness :
  scales (y_plot (Num 1)) !! "y" = Some linear_scale /\
  noData (y_props (Num 9) (Num 2) Undefined Undefined None Undefined)
    (Num 1) (Num 5) = false /\
  run_rangeFn (y_props (Num 9) (Num 2) Undefined Undefined None Undefined)
    (y_plot (Num 1)) (Num 1) (Num 5) "y" = Normal (Num 0, Num 100).
Proof.
  assert (Hs : scales (y_plot (Num 1)) !! "y" = Some linear_scale) by reflexivity.
  assert (Hn : noData (y_props (Num 9) (Num 2) Undefined Undefined None Undefined)
                 (Num 1) (Num 5) = false) by reflexivity.
  split; [exact Hs|]. split; [exact Hn|].
  exact (proj1 (@degeneracy_guard_fallback numeric_GrafanaSchema sample_uPlot
                  spec_GrafanaData _ _ _ _ _ _ Hs Hn) eq_refl).
Defined.

(** C4, the claim as stated fails: with [centeredZero] and the hard-only
    minimum [-1], the extent [{-3, 7}] is centred to [{-7, 7}], but line 111
    hands [rangeNum] the pair [(-1, 7)], whatever the library, and the range
    before the hard override is what [rangeNum] makes of that pair.  The
    stand-in library pads it to [[-1, 7.8]], which is not symmetric. *)
Lemma centered_range_not_symmetric :
  centeredExtent (y_props (Num (-1)) Undefined Undefined Undefined (Some true) Undefined)
    (Num (-3)) (Num 7) = (Num (-7), Num 7) /\
  paddingArgs (y_props (Num (-1)) Undefined Undefined Undefined (Some true) Undefined)
    (Num (-3)) (Num 7) = (Num (-1), Num 7) /\
  (forall (U : uPlotLib) (D : GrafanaData),
     @decimalSnap numeric_GrafanaSchema D
       (y_props (Num (-1)) Undefined Undefined Undefined (Some true) Undefined)
       (@distrRange numeric_GrafanaSchema U
          (y_props (Num (-1)) Undefined Undefined Undefined (Some true) Undefined)
          linear_scale (Num (-3)) (Num 7)) =
     @rangeNum U (Num (-1)) (Num 7)
       (rangeConfig (y_props (Num (-1)) Undefined Undefined Undefined (Some true)
                       Undefined))) /\
  sample_rangeNum (Num (-1)) (Num 7)
    (rangeConfig (y_props (Num (-1)) Undefined Undefined Undefined (Some true)
                    Undefined)) = (Num (-1), Num (7 + 8 * 0x1.999999999999ap-4)) /\
  (-1 =? - (7 + 8 * 0x1.999999999999ap-4)) = false.
Proof. repeat split. Qed.

(** No bounds, [centeredZero] and [decimals = 0] on the extent [{-3, 7}]: the
    snapped range is symmetric. *)
Lemma centered_zero_symmetric_witness :
  truthy_bool (ScaleProps.centeredZero
     (y_props Undefined Undefined Undefined Undefined (Some true) (Num 0))) = true /\
  centeredExtent (y_props Undefined Undefined Undefined Undefined (Some true) (Num 0))
    (Num (-3)) (Num 7) = (Num (-7), Num 7) /\
  exists r',
    @decimalSnap numeric_GrafanaSchema spec_GrafanaData
      (y_props Undefined Undefined Undefined Undefined (Some true) (Num 0))
      (@distrRange numeric_GrafanaSchema sample_uPlot
         (y_props Undefined Undefined Undefined Undefined (Some true) (Num 0))
         linear_scale (Num (-3)) (Num 7)) = (Num (- r'), Num r').
Proof.
  split; [reflexivity|].
  destruct (@centered_zero_symmetric numeric_GrafanaSchema sample_uPlot spec_GrafanaData
              (y_props Undefined Undefined Undefined Undefined (Some true) (Num 0))
              linear_scale (Num (-3)) (Num 7) eq_refl (or_introl eq_refl))
    as (He & _ & _ & Hsym).
  split; [exact He|].
  destruct (Hsym eq_refl eq_refl) as (_ & Hr).
  apply (Hr (ToNumber (snd (sample_rangeNum (Num (-7)) (Num 7)
     (@rangeConfig numeric_GrafanaSchema
        (y_props Undefined Undefined Undefined Undefined (Some true) (Num 0))))))).
  - vm_compute. reflexivity.
  - intros _. vm_compute. reflexivity.
Defined.

(** C6, the claim as stated fails: [optMinMax('min', 1, NaN)] tests
    [1 < NaN], which is false, and returns [NaN], which is not the smaller
    value ([NaN <= 1] is false); with the arguments swapped it returns 1.
    The same for ['max'], and so for [merge]. *)
Lemma merge_with_NaN_not_smaller :
  optMinMax tag_min (Num 1) (Num nan) = Num nan /\
  (nan <=? 1) = false /\
  optMinMax tag_min (Num nan) (Num 1) = Num 1 /\
  optMinMax tag_max (Num 1) (Num nan) = Num nan /\
  (1 <=? nan) = false /\
  ScaleProps.min (merge (y_props (Num 1) Undefined Undefined Undefined None Undefined)
                        (y_props (Num nan) Undefined Undefined Undefined None Undefined))
    = Num nan.
Proof. repeat split. Qed.

(** Merging the minima 5 and 2 keeps 2, which is at most both. *)
Lemma merge_takes_widest_bounds_witness :
  ScaleProps.min (merge (y_props (Num 5) Undefined Undefined Undefined None Undefined)
                        (y_props (Num 2) Undefined Undefined Undefined None Undefined))
    = Num 2 /\
  (2 <=? 5) = true /\ (2 <=? 2) = true.
Proof.
  destruct (merge_takes_widest_bounds
              (y_props (Num 5) Undefined Undefined Undefined None Undefined)
              (y_props (Num 2) Undefined Undefined Undefined None Undefined)
              5 2 tag_min)
    as (_ & _ & Hm & _ & _ & _ & _ & _ & _ & _ & (_ & _ & _ & _ & Hle) & _).
  split; [exact (Hm eq_refl eq_refl)|]. exact (Hle eq_refl eq_refl).
Defined.

(** A scale on key [bool] built with bounds and a range of its own. *)
Lemma boolean_scale_fixed_range_witness :
  isBooleanUnit (GrafanaData := spec_GrafanaData) "bool" = true /\
  exists d : @Scale numeric_GrafanaSchema,
    run_getConfig (props_of "bool" None (Num 5) (Num 50) Undefined Undefined
                     (Some (RangeMinMax (Num 3, Num 4))) None Undefined Undefined
                     None Undefined) !! "bool" = Some d /\
    Scale.range d = RangeMinMax (Num 0, Num 1) /\ Scale.auto d = false.
Proof.
  split; [reflexivity|].
  destruct (@boolean_scale_fixed_range numeric_GrafanaSchema sample_uPlot spec_GrafanaData
              (props_of "bool" None (Num 5) (Num 50) Undefined Undefined
                 (Some (RangeMinMax (Num 3, Num 4))) None Undefined Undefined
                 None Undefined) eq_refl) as (d & _ & Hl & Hr & Ha).
  exists d. split; [exact Hl|]. split; [exact Hr | exact Ha].
Defined.

(** With the caching library the second of two identical calls returns
    another range than the first: the hard-only minimum 50 and the extent
    [{1, 5}] give [[0, 100]] through the guard, written into the library's
    array, which the second call finds as [[0, 100]] and overrides to
    [[50, 100]]. *)
Lemma caching_library_calls_differ :
  match @rangeFnO numeric_GrafanaSchema (caching_uPlot sample_uPlot) spec_GrafanaData
          (y_props (Num 50) Undefined Undefined Undefined None Undefined)
          (y_plot (Num 1)) (Num 1) (Num 5) "y" (empty_world None) with
  | Normal (l1, w1) =>
      arrays w1 !! l1 = Some (Num 0, Num 100) /\
      match @rangeFnO numeric_GrafanaSchema (caching_uPlot sample_uPlot) spec_GrafanaData
              (y_props (Num 50) Undefined Undefined Undefined None Undefined)
              (y_plot (Num 1)) (Num 1) (Num 5) "y" w1 with
      | Normal (l2, w2) => l2 = l1 /\ arrays w2 !! l2 = Some (Num 50, Num 100)
      | TypeError => False
      end
  | TypeError => False
  end.
Proof. vm_compute. repeat split. Qed.

(** Two calls with the hard-only minimum 50, on two plots that hold the same
    scale under [y], with the allocating library. *)
Lemma rangeFn_calls_agree_witness :
  exists l1 w1 l2 w2 r,
    @rangeFnO numeric_GrafanaSchema (allocating_uPlot sample_uPlot) spec_GrafanaData
      (y_props (Num 50) Undefined Undefined Undefined None Undefined)
      (y_plot (Num 1)) (Num 1) (Num 5) "y" (empty_world tt) = Normal (l1, w1) /\
    @rangeFnO numeric_GrafanaSchema (allocating_uPlot sample_uPlot) spec_GrafanaData
      (y_props (Num 50) Undefined Undefined Undefined None Undefined)
      xy_plot (Num 1) (Num 5) "y" w1 = Normal (l2, w2) /\
    arrays w1 !! l1 = Some r /\ arrays w2 !! l2 = Some r /\ r = (Num 0, Num 100).
Proof.
  eexists _, _.
  destruct (@rangeFn_calls_agree numeric_GrafanaSchema sample_uPlot
              (allocating_uPlot sample_uPlot) spec_GrafanaData
              (y_props (Num 50) Undefined Undefined Undefined None Undefined)
              (y_props (Num 50) Undefined Undefined Undefined None Undefined)
              (y_plot (Num 1)) xy_plot (Num 1) (Num 5) "y" (empty_world tt) _ _
              (allocating_uPlot_fresh sample_uPlot)
              eq_refl eq_refl eq_refl eq_refl eq_refl eq_refl eq_refl eq_refl)
    as (l2 & w2 & r & H2 & Hr1 & Hr2 & _ & _ & Hpure).
  exists l2, w2, r. split; [reflexivity|]. split; [exact H2|].
  split; [exact Hr1|]. split; [exact Hr2|].
  injection Hpure as <-. reflexivity.
Defined.

(** C9, the claim as stated fails: a time scale on key [x] built without a
    [range] gets [rangeFn] as its range ([range ?? rangeFn], line 153), the
    time flag playing no part in that choice. *)
Lemma time_scale_range_is_rangeFn :
  truthy_bool (ScaleProps.isTime
     (props_of "x" (Some true) Undefined Undefined Undefined Undefined None None
        Undefined Undefined None Undefined)) = true /\
  @Scale.range numeric_GrafanaSchema <$>
    (run_getConfig (props_of "x" (Some true) Undefined Undefined Undefined Undefined
                      None None Undefined Undefined None Undefined) !! "x") =
  Some (RangeFunction
          (run_rangeFn (props_of "x" (Some true) Undefined Undefined Undefined Undefined
                          None None Undefined Undefined None Undefined))) /\
  (forall (U : uPlotLib) (D : GrafanaData),
     @isBooleanUnit D "x" = false ->
     @Scale.range numeric_GrafanaSchema <$>
       (@getConfig numeric_GrafanaSchema U D
          (props_of "x" (Some true) Undefined Undefined Undefined Undefined
             None None Undefined Undefined None Undefined) !! "x") =
     Some (RangeFunction
             (@rangeFn numeric_GrafanaSchema U D
                (props_of "x" (Some true) Undefined Undefined Undefined Undefined
                   None None Undefined Undefined None Undefined)))).
Proof.
  split; [reflexivity|]. split; [reflexivity|].
  intros U D Hb. unfold getConfig, props_of. cbn [ScaleProps.scaleKey].
  rewrite Hb. reflexivity.
Qed.

(** C5, the claim as stated fails: with [decimals = 0] and the hard-only
    bounds 0.5 and 1.5, lines 125-131 overwrite what the snap of lines 119-122
    produced, and [[0.5, 1.5]] passes the guard: neither end is an integer. *)
Lemma snapped_range_not_integer :
  strict_eq_num (ScaleProps.decimals
     (y_props (Num 0.5) (Num 1.5) Undefined Undefined None (Num 0))) 0 = true /\
  run_rangeFn (y_props (Num 0.5) (Num 1.5) Undefined Undefined None (Num 0))
    (y_plot (Num 1)) (Num 1) (Num 5) "y" = Normal (Num 0.5, Num 1.5) /\
  (forall (U : uPlotLib) (D : GrafanaData),
     @rangeFn numeric_GrafanaSchema U D
       (y_props (Num 0.5) (Num 1.5) Undefined Undefined None (Num 0))
       (y_plot (Num 1)) (Num 1) (Num 5) "y" = Normal (Num 0.5, Num 1.5)) /\
  is_integer 0.5 = false /\ is_integer 1.5 = false.
Proof. repeat split. Qed.

(** No bounds and [decimals = 0] on the extent [{1, 5}]: the stand-in library
    pads to [[0.6, 5.4]], which snaps to [[0, 6]]. *)
Lemma decimal_snap_floors_and_ceils_witness :
  strict_eq_num (ScaleProps.decimals
     (y_props Undefined Undefined Undefined Undefined None (Num 0))) 0 = true /\
  scales (y_plot (Num 1)) !! "y" = Some linear_scale /\
  noData (y_props Undefined Undefined Undefined Undefined None (Num 0))
    (Num 1) (Num 5) = false /\
  run_rangeFn (y_props Undefined Undefined Undefined Undefined None (Num 0))
    (y_plot (Num 1)) (Num 1) (Num 5) "y" = Normal (Num 0, Num 6).
Proof.
  assert (Hs : scales (y_plot (Num 1)) !! "y" = Some linear_scale) by reflexivity.
  assert (Hn : noData (y_props Undefined Undefined Undefined Undefined None (Num 0))
                 (Num 1) (Num 5) = false) by reflexivity.
  split; [reflexivity|]. split; [exact Hs|]. split; [exact Hn|].
  destruct (@decimal_snap_floors_and_ceils numeric_GrafanaSchema sample_uPlot
              (y_props Undefined Undefined Undefined Undefined None (Num 0))
              (y_plot (Num 1)) linear_scale (Num 1) (Num 5) "y" eq_refl Hs Hn)
    as (_ & _ & _ & _ & Hret).
  exact (Hret eq_refl).
Defined.

(* ===================================================================== *)
(** ** The order of binary64 numbers, through their ranks *)
(* ===================================================================== *)

Section FloatOrd.
Local Open Scope Z_scope.

Lemma Prim2SF_bounded (x : float) : SF_bounded (Prim2SF x).
Proof.
  destruct (Prim2SF x) as [s|s| |s m e] eqn:Hx; cbn [SF_bounded]; trivial.
  destruct (Prim2SF_finite_valid x s m e Hx) as (Hd & _ & He).
  split; [|exact He].
  destruct (digits2_pos_bounds m) as [_ Hhi].
  assert (2 ^ Zpos (digits2_pos m) <= 2 ^ 53) by (apply Z.pow_le_mono_r; lia).
  lia.
Qed.

Lemma SFcompare_ord (a b : spec_float) :
  SF_bounded a -> SF_bounded b -> a <> S754_nan -> b <> S754_nan ->
  SFcompare a b = Some (SFord a ?= SFord b).
Proof.
  intros Ha Hb Hna Hnb.
  destruct a as [sa|sa| |sa ma ea], b as [sb|sb| |sb mb eb]; try congruence;
    cbn [SFcompare SFord SF_bounded] in *;
    change (2 ^ 64) with 18446744073709551616 in *;
    change (2 ^ 53) with 9007199254740992 in *;
    try (destruct sa, sb; reflexivity);
    try (f_equal; symmetry; destruct sa; try destruct sb;
         first [apply Z.compare_lt_iff | apply Z.compare_gt_iff | apply Z.compare_eq_iff]; lia).
  rewrite compare_cont_Eq_Z. f_equal. symmetry.
  destruct sa, sb;
    destruct (Z.compare_spec ea eb); destruct (Z.compare_spec (Zpos ma) (Zpos mb));
    cbn [CompOpp];
    first [apply Z.compare_lt_iff | apply Z.compare_gt_iff | apply Z.compare_eq_iff]; lia.
Qed.


Lemma is_nan_SF (x : float) :
  is_nan x = match Prim2SF x with S754_nan => true | _ => false end.
Proof.
  destruct (is_nan x) eqn:E.
  - apply is_nan_Prim2SF in E. rewrite E. reflexivity.
  - apply is_nan_false_Prim2SF in E. destruct (Prim2SF x); congruence.
Qed.

Lemma float_compare_ord (a b : float) :
  is_nan a = false -> is_nan b = false ->
  SFcompare (Prim2SF a) (Prim2SF b) = Some (float_ord a ?= float_ord b).
Proof.
  intros Ha Hb. apply SFcompare_ord; auto using Prim2SF_bounded;
    apply is_nan_false_Prim2SF; assumption.
Qed.

(** Off [NaN], the three comparisons are those of the integers [float_ord]. *)
Lemma leb_ord (a b : float) :
  is_nan a = false -> is_nan b = false ->
  (a <=? b)%float = (float_ord a <=? float_ord b).
Proof.
  intros Ha Hb. rewrite FloatAxioms.leb_spec. unfold SFleb, Z.leb.
  rewrite (float_compare_ord a b Ha Hb).
  destruct (float_ord a ?= float_ord b); reflexivity.
Qed.

Lemma ltb_ord (a b : float) :
  is_nan a = false -> is_nan b = false ->
  (a <? b)%float = (float_ord a <? float_ord b).
Proof.
  intros Ha Hb. rewrite FloatAxioms.ltb_spec. unfold SFltb, Z.ltb.
  rewrite (float_compare_ord a b Ha Hb).
  destruct (float_ord a ?= float_ord b); reflexivity.
Qed.

Lemma eqb_ord (a b : float) :
  is_nan a = false -> is_nan b = false ->
  (a =? b)%float = (float_ord a =? float_ord b).
Proof.
  intros Ha Hb. rewrite FloatAxioms.eqb_spec, Z.eqb_compare. unfold SFeqb.
  rewrite (float_compare_ord a b Ha Hb). reflexivity.
Qed.

Lemma is_nan_opp (x : float) : is_nan (- x) = is_nan x.
Proof. rewrite !is_nan_SF, FloatAxioms.opp_spec. destruct (Prim2SF x); reflexivity. Qed.

Lemma is_nan_abs (x : float) : is_nan (abs x) = is_nan x.
Proof. rewrite !is_nan_SF, FloatAxioms.abs_spec. destruct (Prim2SF x); reflexivity. Qed.

Lemma float_ord_opp (x : float) : float_ord (- x) = - float_ord x.
Proof.
  unfold float_ord. rewrite FloatAxioms.opp_spec.
  destruct (Prim2SF x) as [s|s| |s m e]; cbn [SFopp SFord]; try reflexivity;
    destruct s; cbn [negb]; lia.
Qed.

Lemma float_ord_abs (x : float) : float_ord (abs x) = Z.abs (float_ord x).
Proof.
  unfold float_ord. rewrite FloatAxioms.abs_spec.
  pose proof (Prim2SF_bounded x) as Hb.
  destruct (Prim2SF x) as [s|s| |s m e]; cbn [SFabs SFord SF_bounded] in *; try reflexivity.
  - destruct s; reflexivity.
  - change (2 ^ 53) with 9007199254740992 in *. destruct s; lia.
Qed.

Lemma Math_max_is_nan (a b : float) :
  is_nan (Math_max a b) = is_nan a || is_nan b.
Proof.
  unfold Math_max. destruct (is_nan a) eqn:Ha; [reflexivity|].
  destruct (is_nan b) eqn:Hb; [reflexivity|]. cbn [orb].
  destruct (a <? b)%float; [exact Hb|].
  destruct (b <? a)%float; [exact Ha|].
  destruct (get_sign a); assumption.
Qed.

Lemma Math_max_ord (a b : float) :
  is_nan a = false -> is_nan b = false ->
  float_ord (Math_max a b) = Z.max (float_ord a) (float_ord b).
Proof.
  intros Ha Hb. unfold Math_max. rewrite Ha, Hb. cbn [orb].
  rewrite (ltb_ord a b Ha Hb), (ltb_ord b a Hb Ha).
  destruct (Z.ltb_spec (float_ord a) (float_ord b)); [lia|].
  destruct (Z.ltb_spec (float_ord b) (float_ord a)); [lia|].
  destruct (get_sign a); lia.
Qed.

End FloatOrd.

(* ===================================================================== *)
(** ** More on the bounds merge *)
(* ===================================================================== *)

Section MergeMore.
Context {S : GrafanaSchema}.
Implicit Types (this props : ScaleProps) (a b c : jsnum) (t : minmax_tag).

Lemma optMinMax_nullish t a b :
  is_nullish (optMinMax t a b) = is_nullish a && is_nullish b.
Proof.
  destruct a as [| |x], b as [| |y]; try reflexivity.
  unfold optMinMax, lt, gt; cbn. destruct t; [destruct (x <? y)|destruct (y <? x)]; reflexivity.
Qed.

Lemma optMinMax_selects t a b : optMinMax t a b = a \/ optMinMax t a b = b.
Proof.
  destruct a as [| |x], b as [| |y]; cbn; auto.
  unfold optMinMax, lt, gt; cbn. destruct t; [destruct (x <? y)|destruct (y <? x)]; auto.
Qed.

Lemma optMinMax_absorbs t a b : optMinMax t (optMinMax t a b) b = optMinMax t a b.
Proof.
  destruct a as [| |x], b as [| |y]; try reflexivity.
  - destruct t; unfold optMinMax, lt, gt; cbn; rewrite ltb_irrefl; reflexivity.
  - destruct t; unfold optMinMax, lt, gt; cbn; rewrite ltb_irrefl; reflexivity.
  - destruct t; unfold optMinMax, lt, gt; cbn.
    + destruct (x <? y) eqn:E; cbn; [rewrite E|rewrite ltb_irrefl]; reflexivity.
    + destruct (y <? x) eqn:E; cbn; [rewrite E|rewrite ltb_irrefl]; reflexivity.
Qed.

Lemma optMinMax_self t a : optMinMax t a a = a.
Proof.
  destruct a as [| |x]; try reflexivity.
  destruct t; unfold optMinMax, lt, gt; cbn; rewrite ltb_irrefl; reflexivity.
Qed.

(** X4: a merge never invents a bound, each merged bound being one of the
    two it was given; merging the same properties a second time changes
    nothing more, and merging a builder's own properties changes nothing. *)
Theorem merge_idempotent this props :
  merge (merge this props) props = merge this props /\
  merge this this = this /\
  (ScaleProps.min (merge this props) = ScaleProps.min this \/
   ScaleProps.min (merge this props) = ScaleProps.min props) /\
  (ScaleProps.max (merge this props) = ScaleProps.max this \/
   ScaleProps.max (merge this props) = ScaleProps.max props).
Proof.
  split; [|split; [|split]].
  - unfold merge; cbn. rewrite !optMinMax_absorbs. reflexivity.
  - destruct this. unfold merge; cbn. rewrite !optMinMax_self. reflexivity.
  - apply optMinMax_selects.
  - apply optMinMax_selects.
Qed.

End MergeMore.

Section MergeOrder.
Context {S : GrafanaSchema}.
Implicit Types (this props : ScaleProps) (a b c : jsnum) (t : minmax_tag).

(** On numbers other than [NaN], ['min'] keeps a number whose rank is the
    smaller rank, and ['max'] one whose rank is the larger. *)
Lemma optMinMax_min_ord (x y : float) :
  is_nan x = false -> is_nan y = false ->
  exists r, optMinMax tag_min (Num x) (Num y) = Num r /\ is_nan r = false /\
            float_ord r = Z.min (float_ord x) (float_ord y).
Proof.
  intros Hx Hy. rewrite optMinMax_min_num, (ltb_ord x y Hx Hy).
  destruct (Z.ltb_spec (float_ord x) (float_ord y)); eexists; (split; [reflexivity|]);
    (split; [assumption|lia]).
Qed.

Lemma optMinMax_max_ord (x y : float) :
  is_nan x = false -> is_nan y = false ->
  exists r, optMinMax tag_max (Num x) (Num y) = Num r /\ is_nan r = false /\
            float_ord r = Z.max (float_ord x) (float_ord y).
Proof.
  intros Hx Hy. rewrite optMinMax_max_num, (ltb_ord y x Hy Hx).
  destruct (Z.ltb_spec (float_ord y) (float_ord x)); eexists; (split; [reflexivity|]);
    (split; [assumption|lia]).
Qed.

Lemma float_ord_range (x : float) : (- 2 ^ 64 <= float_ord x <= 2 ^ 64)%Z.
Proof.
  unfold float_ord. pose proof (Prim2SF_bounded x) as Hb.
  destruct (Prim2SF x) as [s|s| |s m e]; cbn [SFord SF_bounded] in *;
    change (2 ^ 64)%Z with 18446744073709551616%Z in *;
    change (2 ^ 53)%Z with 9007199254740992%Z in *; try lia; destruct s; lia.
Qed.

Lemma optMinMax_rank t a b :
  not_NaN a = true -> not_NaN b = true ->
  not_NaN (optMinMax t a b) = true /\
  bound_rank t (optMinMax t a b) = rank_pick t (bound_rank t a) (bound_rank t b).
Proof.
  intros Ha Hb.
  destruct a as [| |x], b as [| |y]; cbn [not_NaN] in *;
    try (destruct t; split; reflexivity).
  1-4: (split; [assumption|]);
       try pose proof (float_ord_range x); try pose proof (float_ord_range y);
       destruct t; cbn [optMinMax is_undefined is_null orb negb bound_rank rank_pick];
       change (2 ^ 65)%Z with 36893488147419103232%Z;
       change (2 ^ 64)%Z with 18446744073709551616%Z in *; lia.
  apply negb_true_iff in Ha, Hb.
  destruct t.
  - destruct (optMinMax_min_ord x y Ha Hb) as (r & -> & Hr & Ho).
    cbn. rewrite Hr. split; [reflexivity|exact Ho].
  - destruct (optMinMax_max_ord x y Ha Hb) as (r & -> & Hr & Ho).
    cbn. rewrite Hr. split; [reflexivity|exact Ho].
Qed.

End MergeOrder.

Section MergeSeries.
Context {S : GrafanaSchema}.
Implicit Types (this props : ScaleProps) (a b c : jsnum) (t : minmax_tag).

Lemma same_bound_rank t a b :
  not_NaN a = true -> not_NaN b = true ->
  bound_rank t a = bound_rank t b -> same_bound a b = true.
Proof.
  intros Ha Hb Hr.
  destruct a as [| |x], b as [| |y]; cbn [same_bound not_NaN bound_rank] in *;
    try reflexivity;
    try pose proof (float_ord_range x); try pose proof (float_ord_range y);
    try (destruct t; change (2 ^ 65)%Z with 36893488147419103232%Z in *;
         change (2 ^ 64)%Z with 18446744073709551616%Z in *; lia).
  apply negb_true_iff in Ha, Hb. rewrite (eqb_ord x y Ha Hb). apply Z.eqb_eq. exact Hr.
Qed.

(** X5: on bounds that are absent or numbers other than [NaN], the order
    and the grouping of merges do not matter: the two results are both absent
    or [===] numbers. *)
Theorem optMinMax_order_irrelevant t a b c :
  not_NaN a = true -> not_NaN b = true -> not_NaN c = true ->
  same_bound (optMinMax t a b) (optMinMax t b a) = true /\
  same_bound (optMinMax t (optMinMax t a b) c) (optMinMax t a (optMinMax t b c)) = true.
Proof.
  intros Ha Hb Hc.
  destruct (optMinMax_rank t a b Ha Hb) as [Nab Rab].
  destruct (optMinMax_rank t b a Hb Ha) as [Nba Rba].
  destruct (optMinMax_rank t b c Hb Hc) as [Nbc Rbc].
  destruct (optMinMax_rank t _ c Nab Hc) as [Nabc Rabc].
  destruct (optMinMax_rank t a _ Ha Nbc) as [Nabc' Rabc'].
  split; apply (same_bound_rank t); try assumption.
  - rewrite Rab, Rba. destruct t; cbn [rank_pick]; lia.
  - rewrite Rabc, Rabc', Rab, Rbc. destruct t; cbn [rank_pick]; lia.
Qed.

Lemma foldl_optMinMax_rank t (bs : list jsnum) a :
  not_NaN a = true -> forallb not_NaN bs = true ->
  not_NaN (foldl (optMinMax t) a bs) = true /\
  forall v, v ∈ a :: bs ->
    match t with
    | tag_min => (bound_rank t (foldl (optMinMax t) a bs) <= bound_rank t v)%Z
    | tag_max => (bound_rank t v <= bound_rank t (foldl (optMinMax t) a bs))%Z
    end.
Proof.
  revert a. induction bs as [|b bs IH]; intros a Ha Hbs.
  - split; [exact Ha|]. intros v Hv. apply list_elem_of_singleton in Hv. subst.
    destruct t; cbn; lia.
  - cbn [forallb] in Hbs. apply andb_true_iff in Hbs as [Hb Hbs].
    destruct (optMinMax_rank t a b Ha Hb) as [Nab Rab].
    destruct (IH _ Nab Hbs) as [Nres Hres]. cbn [foldl].
    split; [exact Nres|]. intros v Hv.
    pose proof (Hres (optMinMax t a b) (list_elem_of_here _ _)) as Hhead.
    apply elem_of_cons in Hv as [->|Hv].
    + rewrite Rab in Hhead. destruct t; cbn [rank_pick] in *; lia.
    + apply elem_of_cons in Hv as [->|Hv].
      * rewrite Rab in Hhead. destruct t; cbn [rank_pick] in *; lia.
      * apply Hres. apply list_elem_of_further. exact Hv.
Qed.

Lemma foldl_merge_min this (ps : list ScaleProps) :
  ScaleProps.min (foldl merge this ps) =
    foldl (optMinMax tag_min) (ScaleProps.min this) (ScaleProps.min <$> ps).
Proof. revert this. induction ps as [|p ps IH]; intros this; [reflexivity|apply IH]. Qed.

Lemma foldl_merge_max this (ps : list ScaleProps) :
  ScaleProps.max (foldl merge this ps) =
    foldl (optMinMax tag_max) (ScaleProps.max this) (ScaleProps.max <$> ps).
Proof. revert this. induction ps as [|p ps IH]; intros this; [reflexivity|apply IH]. Qed.

Lemma forallb_fmap {A B} (f : A -> B) (g : B -> bool) (l : list A) :
  forallb g (f <$> l) = forallb (fun x => g (f x)) l.
Proof. induction l as [|x l IH]; cbn; [reflexivity|rewrite IH; reflexivity]. Qed.

Lemma forallb_weaken {A} (f g : A -> bool) (l : list A) :
  (forall x, f x = true -> g x = true) -> forallb f l = true -> forallb g l = true.
Proof.
  intros H. induction l as [|x l IH]; cbn; [reflexivity|].
  intros Hl. apply andb_true_iff in Hl as [Hx Hl]. rewrite (H x Hx), (IH Hl). reflexivity.
Qed.

(** X6: after merging any sequence of series into a builder, none of whose
    present bounds is [NaN], the builder's [min] is a number at most every
    [min] that was contributed, and its [max] a number at least every [max]:
    merging only widens. *)
Theorem merge_all_widens this (ps : list ScaleProps) (p : ScaleProps) :
  forallb bounds_not_NaN (this :: ps) = true ->
  p ∈ this :: ps ->
  (forall x, ScaleProps.min p = Num x ->
     exists r, ScaleProps.min (foldl merge this ps) = Num r /\ (r <=? x) = true) /\
  (forall x, ScaleProps.max p = Num x ->
     exists r, ScaleProps.max (foldl merge this ps) = Num r /\ (x <=? r) = true).
Proof.
  intros Hok Hp. cbn [forallb] in Hok. apply andb_true_iff in Hok as [Hthis Hps].
  unfold bounds_not_NaN in Hthis. apply andb_true_iff in Hthis as [Hmin Hmax].
  split; intros x Hx.
  - rewrite foldl_merge_min.
    destruct (foldl_optMinMax_rank tag_min (ScaleProps.min <$> ps) _ Hmin) as [Nres Hres].
    { rewrite forallb_fmap. revert Hps. apply forallb_weaken.
      intros q Hq. unfold bounds_not_NaN in Hq. apply andb_true_iff in Hq. tauto. }
    assert (Hin : ScaleProps.min p ∈ ScaleProps.min this :: (ScaleProps.min <$> ps)).
    { apply elem_of_cons in Hp as [->|Hp]; [apply list_elem_of_here|].
      apply list_elem_of_further. apply list_elem_of_fmap. eauto. }
    specialize (Hres _ Hin). rewrite Hx in Hres. cbn [bound_rank] in Hres.
    assert (Nx : is_nan x = false).
    { assert (Hn : not_NaN (Num x) = true).
      { rewrite <- Hx. apply elem_of_cons in Hp as [->|Hp]; [exact Hmin|].
        rewrite forallb_forall in Hps. 
        assert (Hq : bounds_not_NaN p = true) by (apply Hps; apply list_elem_of_In; exact Hp).
        unfold bounds_not_NaN in Hq. apply andb_true_iff in Hq. tauto. }
      apply negb_true_iff in Hn. exact Hn. }
    pose proof (float_ord_range x).
    destruct (foldl (optMinMax tag_min) (ScaleProps.min this) (ScaleProps.min <$> ps))
      as [| |r]; cbn [bound_rank not_NaN] in *;
      try (change (2 ^ 65)%Z with 36893488147419103232%Z in *;
           change (2 ^ 64)%Z with 18446744073709551616%Z in *; lia).
    exists r. split; [reflexivity|]. apply negb_true_iff in Nres.
    rewrite (leb_ord r x Nres Nx). apply Z.leb_le. exact Hres.
  - rewrite foldl_merge_max.
    destruct (foldl_optMinMax_rank tag_max (ScaleProps.max <$> ps) _ Hmax) as [Nres Hres].
    { rewrite forallb_fmap. revert Hps. apply forallb_weaken.
      intros q Hq. unfold bounds_not_NaN in Hq. apply andb_true_iff in Hq. tauto. }
    assert (Hin : ScaleProps.max p ∈ ScaleProps.max this :: (ScaleProps.max <$> ps)).
    { apply elem_of_cons in Hp as [->|Hp]; [apply list_elem_of_here|].
      apply list_elem_of_further. apply list_elem_of_fmap. eauto. }
    specialize (Hres _ Hin). rewrite Hx in Hres. cbn [bound_rank] in Hres.
    assert (Nx : is_nan x = false).
    { assert (Hn : not_NaN (Num x) = true).
      { rewrite <- Hx. apply elem_of_cons in Hp as [->|Hp]; [exact Hmax|].
        rewrite forallb_forall in Hps.
        assert (Hq : bounds_not_NaN p = true) by (apply Hps; apply list_elem_of_In; exact Hp).
        unfold bounds_not_NaN in Hq. apply andb_true_iff in Hq. tauto. }
      apply negb_true_iff in Hn. exact Hn. }
    pose proof (float_ord_range x).
    destruct (foldl (optMinMax tag_max) (ScaleProps.max this) (ScaleProps.max <$> ps))
      as [| |r]; cbn [bound_rank not_NaN] in *;
      try (change (2 ^ 65)%Z with 36893488147419103232%Z in *;
           change (2 ^ 64)%Z with 18446744073709551616%Z in *; lia).
    exists r. split; [reflexivity|]. apply negb_true_iff in Nres.
    rewrite (leb_ord x r Nx Nres). apply Z.leb_le. exact Hres.
Qed.

End MergeSeries.

(* ===================================================================== *)
(** ** More on the range function and the descriptor *)
(* ===================================================================== *)

Section RangeFnMore.
Context {S : GrafanaSchema} {U : uPlotLib} {D : GrafanaData}.
Implicit Types (props this : ScaleProps) (u : uPlot) (scale : ScaleState).
Implicit Types (dataMin dataMax : jsnum) (scaleKey : string).

Lemma hardMinOnly_num props :
  hardMinOnly props = true -> exists x, ScaleProps.min props = Num x.
Proof.
  unfold hardMinOnly. intros H. apply andb_true_iff in H as [_ H].
  destruct (ScaleProps.min props) as [| |x]; try discriminate. eauto.
Qed.

Lemma hardMaxOnly_num props :
  hardMaxOnly props = true -> exists x, ScaleProps.max props = Num x.
Proof.
  unfold hardMaxOnly. intros H. apply andb_true_iff in H as [_ H].
  destruct (ScaleProps.max props) as [| |x]; try discriminate. eauto.
Qed.

Lemma getConfig_auto props (d : Scale) :
  getConfig props !! ScaleProps.scaleKey props = Some d ->
  Scale.auto d = negb (isBooleanUnit (ScaleProps.scaleKey props))
                 && negb (truthy_bool (ScaleProps.isTime props))
                 && negb (hasFixedRange props).
Proof.
  unfold getConfig. destruct (isBooleanUnit (ScaleProps.scaleKey props));
    rewrite lookup_singleton_eq; intros [= <-]; reflexivity.
Qed.

(** X2: when both bounds are hard-only, [rangeFn] returns them as the
    range, or [[0, 100]] when the minimum is not below the maximum, whatever
    the extent (null ends included), the distribution and the uPlot library;
    and the descriptor has [auto] false. *)
Theorem fixed_range_ignores_data props u scale dataMin dataMax scaleKey :
  hasFixedRange props = true ->
  scales u !! scaleKey = Some scale ->
  exists lo hi,
    ScaleProps.min props = Num lo /\ ScaleProps.max props = Num hi /\
    rangeFn props u dataMin dataMax scaleKey =
      Normal (if hi <=? lo then (Num 0, Num 100) else (Num lo, Num hi)) /\
    forall d : Scale,
      getConfig props !! ScaleProps.scaleKey props = Some d -> Scale.auto d = false.
Proof.
  intros Hf Hs. pose proof Hf as Hf'. unfold hasFixedRange in Hf'.
  apply andb_true_iff in Hf' as [Hmin Hmax].
  destruct (hardMinOnly_num _ Hmin) as [lo Hlo], (hardMaxOnly_num _ Hmax) as [hi Hhi].
  exists lo, hi. split; [exact Hlo|]. split; [exact Hhi|]. split.
  - assert (Hn : noData props dataMin dataMax = false)
      by (unfold noData; rewrite Hf; reflexivity).
    rewrite (rangeFn_past_noData _ _ _ _ _ _ Hs Hn).
    unfold beforeGuard, hardOverride. rewrite Hmin, Hmax. cbn [fst snd].
    unfold degeneracyGuard, ge. rewrite Hlo, Hhi. cbn [fst snd ToNumber].
    reflexivity.
  - intros d Hd. rewrite (getConfig_auto _ _ Hd), Hf.
    rewrite andb_false_r. reflexivity.
Qed.

(** X12: the descriptor's [auto] is true exactly when the key is not
    boolean, the scale is not a time scale and the two bounds are not both
    hard-only. *)
Theorem auto_iff props (d : Scale) :
  getConfig props !! ScaleProps.scaleKey props = Some d ->
  (Scale.auto d = true <->
   isBooleanUnit (ScaleProps.scaleKey props) = false /\
   truthy_bool (ScaleProps.isTime props) = false /\
   hasFixedRange props = false).
Proof.
  intros Hd. rewrite (getConfig_auto _ _ Hd).
  destruct (isBooleanUnit _), (truthy_bool _), (hasFixedRange props); cbn; intuition congruence.
Qed.

(** X3: [merge] leaves the soft bounds, and every property other than [min]
    and [max], as they were, and a merged bound is absent only when both
    bounds were; so a hard-only bound stays hard-only, a fixed range stays
    fixed, and a merge never turns the descriptor's [auto] back on. *)
Theorem merge_keeps_bounds this props :
  ScaleProps.softMin (merge this props) = ScaleProps.softMin this /\
  ScaleProps.softMax (merge this props) = ScaleProps.softMax this /\
  ScaleProps.scaleKey (merge this props) = ScaleProps.scaleKey this /\
  ScaleProps.isTime (merge this props) = ScaleProps.isTime this /\
  ScaleProps.range (merge this props) = ScaleProps.range this /\
  ScaleProps.distribution (merge this props) = ScaleProps.distribution this /\
  ScaleProps.orientation (merge this props) = ScaleProps.orientation this /\
  ScaleProps.direction (merge this props) = ScaleProps.direction this /\
  ScaleProps.log (merge this props) = ScaleProps.log this /\
  ScaleProps.linearThreshold (merge this props) = ScaleProps.linearThreshold this /\
  ScaleProps.centeredZero (merge this props) = ScaleProps.centeredZero this /\
  ScaleProps.decimals (merge this props) = ScaleProps.decimals this /\
  is_nullish (ScaleProps.min (merge this props)) =
    is_nullish (ScaleProps.min this) && is_nullish (ScaleProps.min props) /\
  is_nullish (ScaleProps.max (merge this props)) =
    is_nullish (ScaleProps.max this) && is_nullish (ScaleProps.max props) /\
  (hardMinOnly this = true -> hardMinOnly (merge this props) = true) /\
  (hardMaxOnly this = true -> hardMaxOnly (merge this props) = true) /\
  (hasFixedRange this = true -> hasFixedRange (merge this props) = true) /\
  (forall d d' : Scale,
     getConfig this !! ScaleProps.scaleKey this = Some d ->
     getConfig (merge this props) !! ScaleProps.scaleKey this = Some d' ->
     Scale.auto d = false -> Scale.auto d' = false).
Proof.
  assert (Hmin : hardMinOnly this = true -> hardMinOnly (merge this props) = true).
  { unfold hardMinOnly, merge; cbn. rewrite optMinMax_nullish.
    destruct (is_nullish (ScaleProps.softMin this)), (is_nullish (ScaleProps.min this));
      cbn; congruence. }
  assert (Hmax : hardMaxOnly this = true -> hardMaxOnly (merge this props) = true).
  { unfold hardMaxOnly, merge; cbn. rewrite optMinMax_nullish.
    destruct (is_nullish (ScaleProps.softMax this)), (is_nullish (ScaleProps.max this));
      cbn; congruence. }
  assert (Hfix : hasFixedRange this = true -> hasFixedRange (merge this props) = true).
  { unfold hasFixedRange. intros H. apply andb_true_iff in H as [H1 H2].
    rewrite (Hmin H1), (Hmax H2). reflexivity. }
  do 12 (split; [reflexivity|]).
  split; [apply optMinMax_nullish|]. split; [apply optMinMax_nullish|].
  split; [exact Hmin|]. split; [exact Hmax|]. split; [exact Hfix|].
  intros d d' Hd Hd'.
  rewrite (getConfig_auto this d Hd).
  change (ScaleProps.scaleKey this) with (ScaleProps.scaleKey (merge this props)) in Hd'.
  rewrite (getConfig_auto _ d' Hd'). cbn [merge ScaleProps.scaleKey ScaleProps.isTime].
  destruct (isBooleanUnit _); [reflexivity|].
  destruct (truthy_bool _); [reflexivity|]. cbn.
  destruct (hasFixedRange this) eqn:E; [|discriminate].
  rewrite (Hfix eq_refl). reflexivity.
Qed.

End RangeFnMore.

Section RangeFnEdges.
Context {S : GrafanaSchema} {U : uPlotLib} {D : GrafanaData}.
Implicit Types (props this : ScaleProps) (u : uPlot) (scale : ScaleState).
Implicit Types (dataMin dataMax : jsnum) (scaleKey : string).
Local Open Scope float_scope.

(** X7: with [centeredZero] set and an extent without [NaN] ([null]
    counting as 0), the centred extent [[-m, m]] contains both ends of the
    extent; [m] is the absolute value of one of them, and not negative. *)
Theorem centered_extent_contains props dataMin dataMax :
  truthy_bool (ScaleProps.centeredZero props) = true ->
  is_nan (ToNumber dataMin) = false ->
  is_nan (ToNumber dataMax) = false ->
  exists m,
    centeredExtent props dataMin dataMax = (Num (- m), Num m) /\
    is_nan m = false /\ (0 <=? m) = true /\
    (- m <=? ToNumber dataMin) = true /\ (ToNumber dataMin <=? m) = true /\
    (- m <=? ToNumber dataMax) = true /\ (ToNumber dataMax <=? m) = true /\
    (m = abs (ToNumber dataMin) \/ m = abs (ToNumber dataMax)).
Proof.
  intros Hc Ha Hb. exists (centeredRadius dataMin dataMax).
  unfold centeredExtent. rewrite Hc. split; [reflexivity|].
  unfold centeredRadius, Math_abs.
  set (a := ToNumber dataMin) in *. set (b := ToNumber dataMax) in *.
  assert (Haa : is_nan (abs a) = false) by (rewrite is_nan_abs; exact Ha).
  assert (Hbb : is_nan (abs b) = false) by (rewrite is_nan_abs; exact Hb).
  assert (Hm : is_nan (Math_max (abs a) (abs b)) = false)
    by (rewrite Math_max_is_nan, Haa, Hbb; reflexivity).
  assert (Hmo : is_nan (- Math_max (abs a) (abs b)) = false)
    by (rewrite is_nan_opp; exact Hm).
  assert (H0 : is_nan 0 = false) by reflexivity.
  pose proof (Math_max_ord (abs a) (abs b) Haa Hbb) as Ho.
  rewrite !float_ord_abs in Ho.
  split; [exact Hm|].
  rewrite (leb_ord _ _ H0 Hm), !(leb_ord _ _ Hmo Ha), !(leb_ord _ _ Ha Hm),
    !(leb_ord _ _ Hmo Hb), !(leb_ord _ _ Hb Hm), float_ord_opp, Ho.
  change (float_ord 0) with 0%Z.
  repeat split; try (apply Z.leb_le; lia).
  unfold Math_max. rewrite Haa, Hbb. cbn [orb].
  destruct (abs a <? abs b); [right; reflexivity|].
  destruct (abs b <? abs a); [left; reflexivity|].
  destruct (get_sign (abs a)); auto.
Qed.

(** X8: with [decimals] exactly 0, past the early return, both ends of the
    returned range are numbers, never [null] or [undefined], whatever the
    extent holds and the library and helpers return. *)
Theorem snapped_result_is_numeric props u scale dataMin dataMax scaleKey :
  strict_eq_num (ScaleProps.decimals props) 0 = true ->
  scales u !! scaleKey = Some scale ->
  noData props dataMin dataMax = false ->
  exists x y, rangeFn props u dataMin dataMax scaleKey = Normal (Num x, Num y).
Proof.
  intros Hdec Hs Hn. rewrite (rangeFn_past_noData _ _ _ _ _ _ Hs Hn).
  unfold beforeGuard, decimalSnap. rewrite Hdec. unfold hardOverride.
  destruct (hardMinOnly props) eqn:Hmin, (hardMaxOnly props) eqn:Hmax; cbn [fst snd];
    try (destruct (hardMinOnly_num _ Hmin) as [lo ->]);
    try (destruct (hardMaxOnly_num _ Hmax) as [hi ->]);
    unfold degeneracyGuard; destruct (ge _ _); eauto.
Qed.

(** X9: on a scale whose discriminator is none of 1, 2 and 4 (a Log scale,
    for one), [rangeFn] reads neither [centeredZero] nor the values of the
    soft bounds: builders that agree on the hard bounds, on which soft bounds
    are present and on [decimals] return the same range. *)
Theorem other_scales_ignore_centering props1 props2 u scale dataMin dataMax scaleKey :
  scales u !! scaleKey = Some scale ->
  strict_eq_num (u_distr scale) 1 = false ->
  strict_eq_num (u_distr scale) 2 = false ->
  strict_eq_num (u_distr scale) 4 = false ->
  ScaleProps.min props1 = ScaleProps.min props2 ->
  ScaleProps.max props1 = ScaleProps.max props2 ->
  is_nullish (ScaleProps.softMin props1) = is_nullish (ScaleProps.softMin props2) ->
  is_nullish (ScaleProps.softMax props1) = is_nullish (ScaleProps.softMax props2) ->
  ScaleProps.decimals props1 = ScaleProps.decimals props2 ->
  rangeFn props1 u dataMin dataMax scaleKey = rangeFn props2 u dataMin dataMax scaleKey.
Proof.
  intros Hs H1 H2 H4 Hmin Hmax Hsmin Hsmax Hdec.
  unfold rangeFn, noData, beforeGuard, hardOverride, decimalSnap, distrRange,
    hasFixedRange, hardMinOnly, hardMaxOnly.
  rewrite Hs, H1, H2, H4, Hmin, Hmax, Hsmin, Hsmax, Hdec. reflexivity.
Qed.

(** X10: [rangeFn] reads a soft bound only through [== null] and [|| 0]:
    replacing a soft bound by another one with the same presence and the same
    value of [softMin || 0] (0, -0 and [NaN] all give 0) changes no result. *)
Theorem soft_bound_read_through_or props1 props2 u dataMin dataMax scaleKey :
  ScaleProps.min props1 = ScaleProps.min props2 ->
  ScaleProps.max props1 = ScaleProps.max props2 ->
  is_nullish (ScaleProps.softMin props1) = is_nullish (ScaleProps.softMin props2) ->
  is_nullish (ScaleProps.softMax props1) = is_nullish (ScaleProps.softMax props2) ->
  logical_or (ScaleProps.softMin props1) (Num 0) = logical_or (ScaleProps.softMin props2) (Num 0) ->
  logical_or (ScaleProps.softMax props1) (Num 0) = logical_or (ScaleProps.softMax props2) (Num 0) ->
  ScaleProps.centeredZero props1 = ScaleProps.centeredZero props2 ->
  ScaleProps.decimals props1 = ScaleProps.decimals props2 ->
  rangeFn props1 u dataMin dataMax scaleKey = rangeFn props2 u dataMin dataMax scaleKey.
Proof.
  intros Hmin Hmax Hsmin Hsmax Homin Homax Hc Hdec.
  unfold rangeFn, noData, beforeGuard, hardOverride, decimalSnap, distrRange,
    paddingArgs, centeredExtent, rangeConfig, softMinMode, softMaxMode,
    hasFixedRange, hardMinOnly, hardMaxOnly.
  rewrite Hmin, Hmax, Hsmin, Hsmax, Homin, Homax, Hc, Hdec. reflexivity.
Qed.

(** X11: the configuration handed to [uPlot.rangeNum] always holds numbers:
    the hard limits are the configured bounds, or minus and plus infinity
    when absent; the soft limits are never [NaN], and are 0 when the soft
    bound is absent, 0 or [NaN]; the mode is 1 when the soft bound is present
    and 3 when it is absent. *)
Theorem rangeConfig_limits props :
  (exists h, Range.hard (Range.min (rangeConfig props)) = Num h /\
     (is_nullish (ScaleProps.min props) = true -> h = neg_infinity) /\
     (is_nullish (ScaleProps.min props) = false -> ScaleProps.min props = Num h)) /\
  (exists h, Range.hard (Range.max (rangeConfig props)) = Num h /\
     (is_nullish (ScaleProps.max props) = true -> h = infinity) /\
     (is_nullish (ScaleProps.max props) = false -> ScaleProps.max props = Num h)) /\
  (exists s, Range.soft (Range.min (rangeConfig props)) = Num s /\ is_nan s = false /\
     (truthy (ScaleProps.softMin props) = false -> s = 0)) /\
  (exists s, Range.soft (Range.max (rangeConfig props)) = Num s /\ is_nan s = false /\
     (truthy (ScaleProps.softMax props) = false -> s = 0)) /\
  (Range.mode (Range.min (rangeConfig props)) = 1%Z <->
     is_nullish (ScaleProps.softMin props) = false) /\
  (Range.mode (Range.min (rangeConfig props)) = 3%Z <->
     is_nullish (ScaleProps.softMin props) = true) /\
  (Range.mode (Range.max (rangeConfig props)) = 1%Z <->
     is_nullish (ScaleProps.softMax props) = false) /\
  (Range.mode (Range.max (rangeConfig props)) = 3%Z <->
     is_nullish (ScaleProps.softMax props) = true).
Proof.
  unfold rangeConfig, softMinMode, softMaxMode; cbn.
  assert (Hsoft : forall v, exists s, logical_or v (Num 0) = Num s /\ is_nan s = false /\
                    (truthy v = false -> s = 0)).
  { intros v. unfold logical_or. destruct (truthy v) eqn:Hv.
    - destruct v as [| |x]; try discriminate. exists x. split; [reflexivity|].
      cbn in Hv. apply negb_true_iff, orb_false_iff in Hv as [_ Hv].
      split; [exact Hv|discriminate].
    - exists 0. repeat split. }
  assert (Hhard : forall v inf, exists h, nullish_coalesce v (Num inf) = Num h /\
                    (is_nullish v = true -> h = inf) /\ (is_nullish v = false -> v = Num h)).
  { intros v inf. destruct v as [| |x]; cbn; eexists; repeat split; congruence. }
  split; [apply Hhard|]. split; [apply Hhard|]. split; [apply Hsoft|]. split; [apply Hsoft|].
  destruct (is_nullish (ScaleProps.softMin props)), (is_nullish (ScaleProps.softMax props));
    repeat split; congruence.
Qed.

End RangeFnEdges.

(* ===================================================================== *)
(** ** More runs on concrete inputs *)
(* ===================================================================== *)

(** A Log scale with the hard-only bounds 0 and 10 and an empty extent. *)
Lemma fixed_range_ignores_data_witness :
  hasFixedRange (y_props (Num 0) (Num 10) Undefined Undefined None Undefined) = true /\
  run_rangeFn (y_props (Num 0) (Num 10) Undefined Undefined None Undefined)
    (y_plot (Num 3)) Null Null "y" = Normal (Num 0, Num 10).
Proof.
  split; [reflexivity|].
  destruct (@fixed_range_ignores_data numeric_GrafanaSchema sample_uPlot spec_GrafanaData
              (y_props (Num 0) (Num 10) Undefined Undefined None Undefined)
              (y_plot (Num 3)) {| u_distr := Num 3; u_log := Undefined |}
              Null Null "y" eq_refl eq_refl) as (lo & hi & Hlo & Hhi & Hr & _).
  injection Hlo as <-. injection Hhi as <-. exact Hr.
Defined.

(** The minima 5, absent and 2, merged in both groupings. *)
Lemma optMinMax_order_irrelevant_witness :
  same_bound (optMinMax tag_min (optMinMax tag_min (Num 5) Null) (Num 2))
             (optMinMax tag_min (Num 5) (optMinMax tag_min Null (Num 2))) = true.
Proof.
  exact (proj2 (optMinMax_order_irrelevant tag_min (Num 5) Null (Num 2)
                  eq_refl eq_refl eq_refl)).
Defined.

(** Three series with the bounds [5..5], [2..] and [..9]. *)
Lemma merge_all_widens_witness :
  exists r,
    ScaleProps.min
      (foldl merge (y_props (Num 5) (Num 5) Undefined Undefined None Undefined)
         [y_props (Num 2) Undefined Undefined Undefined None Undefined;
          y_props Undefined (Num 9) Undefined Undefined None Undefined]) = Num r /\
    (r <=? 2) = true.
Proof.
  apply (@merge_all_widens numeric_GrafanaSchema
           (y_props (Num 5) (Num 5) Undefined Undefined None Undefined)
           [y_props (Num 2) Undefined Undefined Undefined None Undefined;
            y_props Undefined (Num 9) Undefined Undefined None Undefined]
           (y_props (Num 2) Undefined Undefined Undefined None Undefined)).
  - reflexivity.
  - apply list_elem_of_further, list_elem_of_here.
  - reflexivity.
Defined.

(** The extent [{-3, 7}] centred. *)
Lemma centered_extent_contains_witness :
  exists m,
    centeredExtent (y_props Undefined Undefined Undefined Undefined (Some true) Undefined)
      (Num (-3)) (Num 7) = (Num (- m), Num m) /\
    (- m <=? -3) = true /\ (7 <=? m) = true.
Proof.
  destruct (@centered_extent_contains numeric_GrafanaSchema
              (y_props Undefined Undefined Undefined Undefined (Some true) Undefined)
              (Num (-3)) (Num 7) eq_refl eq_refl eq_refl)
    as (m & He & _ & _ & Hlo & _ & _ & Hhi & _).
  exists m. split; [exact He|]. split; [exact Hlo | exact Hhi].
Defined.

(** [decimals = 0] on an extent whose minimum is null. *)
Lemma snapped_result_is_numeric_witness :
  exists x y,
    run_rangeFn (y_props Undefined Undefined Undefined Undefined None (Num 0))
      (y_plot (Num 1)) Null (Num 5) "y" = Normal (Num x, Num y).
Proof.
  exact (@snapped_result_is_numeric numeric_GrafanaSchema sample_uPlot spec_GrafanaData
           (y_props Undefined Undefined Undefined Undefined None (Num 0))
           (y_plot (Num 1)) linear_scale Null (Num 5) "y" eq_refl eq_refl eq_refl).
Defined.

(** A Log scale, with and without [centeredZero], and two soft minima. *)
Lemma other_scales_ignore_centering_witness :
  run_rangeFn (y_props Undefined Undefined (Num 5) Undefined (Some true) Undefined)
    (y_plot (Num 3)) (Num 1) (Num 100) "y" =
  run_rangeFn (y_props Undefined Undefined (Num 7) Undefined None Undefined)
    (y_plot (Num 3)) (Num 1) (Num 100) "y".
Proof.
  exact (@other_scales_ignore_centering numeric_GrafanaSchema sample_uPlot spec_GrafanaData
           (y_props Undefined Undefined (Num 5) Undefined (Some true) Undefined)
           (y_props Undefined Undefined (Num 7) Undefined None Undefined)
           (y_plot (Num 3)) {| u_distr := Num 3; u_log := Undefined |}
           (Num 1) (Num 100) "y"
           eq_refl eq_refl eq_refl eq_refl eq_refl eq_refl eq_refl eq_refl eq_refl).
Defined.

(** The soft minima 0 and [NaN]. *)
Lemma soft_bound_read_through_or_witness :
  run_rangeFn (y_props Undefined Undefined (Num 0) Undefined None Undefined)
    (y_plot (Num 1)) (Num 1) (Num 5) "y" =
  run_rangeFn (y_props Undefined Undefined (Num nan) Undefined None Undefined)
    (y_plot (Num 1)) (Num 1) (Num 5) "y".
Proof.
  exact (@soft_bound_read_through_or numeric_GrafanaSchema sample_uPlot spec_GrafanaData
           (y_props Undefined Undefined (Num 0) Undefined None Undefined)
           (y_props Undefined Undefined (Num nan) Undefined None Undefined)
           (y_plot (Num 1)) (Num 1) (Num 5) "y"
           eq_refl eq_refl eq_refl eq_refl eq_refl eq_refl eq_refl eq_refl).
Defined.

(** A numeric scale on [y] with no bounds: [auto] is on. *)
Lemma auto_iff_witness :
  exists d : @Scale numeric_GrafanaSchema,
    run_getConfig (y_props Undefined Undefined Undefined Undefined None Undefined) !! "y"
      = Some d /\
    Scale.auto d = true.
Proof.
  eexists. split; [reflexivity|].
  apply (proj2 (@auto_iff numeric_GrafanaSchema sample_uPlot spec_GrafanaData
                  (y_props Undefined Undefined Undefined Undefined None Undefined)
                  _ eq_refl)).
  repeat split.
Defined.
